(** * Falcon: the interaction controller of the cross-filter application

    A shallow embedding of the [App] class (the active-view / brush state
    machine, its lazy [update] and the rendering calls it issues) together
    with the pieces of its collaborators that the class calls.

    Conventions of the embedding:
    - JavaScript numbers of the data domain (extents, brush endpoints, bin
      keys) are exact rationals [Q]; counts and pixel indices are [Z].
      Floating-point rounding, [NaN] and infinities of the data domain are
      outside the model.
    - [Map<K, V>] objects are [gmap]s when only lookups matter ([brushes],
      [data]) and association lists when the iteration order is observed
      ([views], iterated by [update]).
    - A method of [App] is a computation of the monad [M]: it reads and
      writes the fields of the object, emits the calls it makes on its
      external collaborators (the vega views, the database, the window) and
      may throw; a throw keeps the field writes and the calls made so far.
    - [console.log] / [console.info] output is not modelled. *)

From Stdlib Require Import ZArith QArith Qabs Qround Lqa Lia.
From stdpp Require Import base option list gmap strings.

Local Open Scope Z_scope.

(** ** View and dimension names, intervals *)

Abbreviation V := string.
Abbreviation D := string.

(** [Interval<number>]: a two element array [[a, b]]. *)
Abbreviation Interval := (Q * Q)%type.

(** ** ndarray

    The [ndarray] package (scijs): a strided view over a flat backing
    array.  [get] reads [data[offset + stride . index]] without bounds
    checks, so a read outside the backing array is [undefined]. *)

Inductive cell : Type :=
| Num (z : Z)
| Undefined
| NaN.

Record ndarray : Type := mk_ndarray {
  nd_data : list cell;
  shape : list nat;
  stride : list Z;
  offset : Z
}.

Definition nd_size (a : ndarray) : nat := fold_right Nat.mul 1%nat (shape a).

Definition data_at (d : list cell) (k : Z) : cell :=
  if k <? 0 then Undefined else nth (Z.to_nat k) d Undefined.

Fixpoint dot (st : list Z) (idx : list Z) : Z :=
  match st, idx with
  | s :: st', i :: idx' => s * i + dot st' idx'
  | _, _ => 0
  end.

(** [a.get(i, j, ...)] *)
Definition nd_get (a : ndarray) (idx : list Z) : cell :=
  data_at (nd_data a) (offset a + dot (stride a) idx).

(** [a.pick(i, null, ...)]: fix the first axis at [i].  A negative [i] is
    treated like [null] by the package: the axis is kept. *)
Definition pick (i : Z) (a : ndarray) : ndarray :=
  if 0 <=? i then
    {| nd_data := nd_data a;
       shape := tl (shape a);
       stride := tl (stride a);
       offset := offset a + hd 0 (stride a) * i |}
  else a.

(** Row-major strides of a freshly allocated array of the given shape. *)
Fixpoint row_major (sh : list nat) : list Z :=
  match sh with
  | [] => []
  | _ :: sh' => Z.of_nat (fold_right Nat.mul 1%nat sh') :: row_major sh'
  end.

(** [ndarray(data, shape)] *)
Definition ndarray_of (d : list cell) (sh : list nat) : ndarray :=
  {| nd_data := d; shape := sh; stride := row_major sh; offset := 0 |}.

(** All indices of an array of shape [sh], in row-major order. *)
Fixpoint indices (sh : list nat) : list (list Z) :=
  match sh with
  | [] => [[]]
  | n :: sh' =>
      flat_map (fun i => map (cons (Z.of_nat i)) (indices sh')) (seq 0 n)
  end.

(** [b - a] on JavaScript numbers: anything but two numbers gives [NaN]. *)
Definition cell_sub (b a : cell) : cell :=
  match b, a with
  | Num y, Num x => Num (y - x)
  | _, _ => NaN
  end.

(** ** Helpers of [./util] *)

Module Util.

Record BinConfig : Type := mk_BinConfig {
  start : Q;
  step : Q
}.

(** Modelled from the spec: [clamp] of [./util] is not under [src/];
    "clamp to [[lo, hi]]" is the value itself inside the range and the
    nearer end of the range outside. *)
Definition clamp (i : Z) (range : Z * Z) : Z :=
  Z.max (fst range) (Z.min (snd range) i).

(** Modelled from the spec: [stepSize] of [./util] is not under [src/];
    the [resolution + 1] boundaries are "equally spaced ... spanning the
    active dimension's extent", so two neighbours are
    [(max - min) / resolution] apart. *)
Definition stepSize (range : Interval) (bins : Z) : Q :=
  ((snd range - fst range) / inject_Z bins)%Q.

(** [Math.round]: the nearest integer, a tie going up. *)
Definition Math_round (x : Q) : Z := Qfloor (x + (1 # 2))%Q.

(** Modelled from the spec: [binNumberFunction] of [./util] is not under
    [src/]; the spec snaps a value [v] to the index of the nearest boundary,
    [round((v - start) / step)] (in its scenario,
    [round((10-(-10))/110*500) = 91]). *)
Definition binNumberFunction (c : BinConfig) (v : Q) : Z :=
  Math_round ((v - start c) / step c)%Q.

(** Modelled from the spec: [binToData] of [./util] is not under [src/];
    a bin key is the data-domain boundary of the bin, derived from the bin
    configuration: [start + bin * step]. *)
Definition binToData (c : BinConfig) (x : Z) : Q :=
  (start c + inject_Z x * step c)%Q.

(** Modelled from the spec: [diff] of [./util] is not under [src/]; the
    spec returns "the element-wise difference [Cube[hiIndex] - Cube[loIndex]]"
    where the code calls [diff(Cube[loIndex], Cube[hiIndex])]: a fresh array
    of the shape of [a] holding [b - a] at every index. *)
Definition diff (a b : ndarray) : ndarray :=
  ndarray_of
    (map (fun idx => cell_sub (nd_get b idx) (nd_get a idx)) (indices (shape a)))
    (shape a).

End Util.
Export Util.

(** [extent] of d3 on a two element array: its minimum and its maximum. *)
Definition extent (value : Interval) : Interval :=
  if Qle_bool (fst value) (snd value) then value
  else (snd value, fst value).

(** ** Views

    Presentation fields ([title], [el], [format]) are left out: the
    controller never reads them. *)

Record Dimension : Type := mk_Dimension {
  name : D;
  bins : Z;
  dim_extent : Interval;
  binConfig : option BinConfig
}.

(** [is1DView] of [./util] tells the two variants apart; here it is a
    match on the constructor. *)
Inductive View : Type :=
| View1D (dimension : Dimension)
| View2D (dimensions : Dimension * Dimension).

(** [Views<V, D>], a [Map] iterated in insertion order. *)
Abbreviation Views := (list (V * View)).

Fixpoint views_get (vs : Views) (n : V) : option View :=
  match vs with
  | [] => None
  | (k, v) :: vs' => if decide (k = n) then Some v else views_get vs' n
  end.

(** Modelled from the spec: [omit] of [./util] is not under [src/]; the
    passive views are all views but the active one: a copy of the map
    without the given key. *)
Definition omit (vs : Views) (n : V) : Views :=
  filter (fun kv => fst kv <> n) vs.

(** ** The collaborators

    [DataBase<V, D>] of [./db]: the three queries the controller issues. *)
Record DataBase : Type := mk_DataBase {
  histogram : Dimension -> ndarray;
  heatmap : Dimension * Dimension -> ndarray;
  loadData : View -> Z -> Views -> gmap D Interval -> gmap V ndarray
}.

(** An element of the table handed to a vega view. *)
Inductive Datum : Type :=
| Datum1D (key : Q) (value : cell)
| Datum2D (keyX keyY : Q) (value : cell).

(** A JavaScript array of data: [None] is a hole ([new Array(n)] is [n]
    holes). *)
Abbreviation JsArray := (list (option Datum)).

Definition new_Array (n : nat) : JsArray := replicate n None.

(** [data[i] = d]: past the end the array grows, holes in between. *)
Definition array_set (data : JsArray) (i : nat) (d : Datum) : JsArray :=
  if decide (i < length data)%nat then <[i := Some d]> data
  else data ++ replicate (i - length data) None ++ [Some d].

(** The calls the controller makes on the outside world, in the order it
    makes them. *)
Inductive Effect : Type :=
| SignalActive (view : V) (on : bool)
    (** [vegaViews.get(view).runAfter(v => v.signal("active", on).run())] *)
| LoadData (activeView : View) (pixels : Z) (passive : Views)
    (brushes : gmap D Interval)
    (** [db.loadData(activeView, pixels, passive, brushes)] *)
| Change (view : V) (data : JsArray)
    (** [vgView.change("table", changeset().remove(truthy).insert(data)).run()] *)
| RequestAnimationFrame
    (** [window.requestAnimationFrame(() => this.update())] *).

(** ** The fields of [App] *)

Record App : Type := mk_App {
  activeView : option V;
  vegaViews : gset V;
  brushes : gmap D Interval;
  data : option (gmap V ndarray);
  needsUpdate : bool;
  views : Views;
  db : DataBase
}.

Definition set_activeView (n : V) (a : App) : App :=
  mk_App (Some n) (vegaViews a) (brushes a) (data a) (needsUpdate a)
    (views a) (db a).
Definition set_vegaViews (vv : gset V) (a : App) : App :=
  mk_App (activeView a) vv (brushes a) (data a) (needsUpdate a)
    (views a) (db a).
Definition set_brushes (b : gmap D Interval) (a : App) : App :=
  mk_App (activeView a) (vegaViews a) b (data a) (needsUpdate a)
    (views a) (db a).
Definition set_data (d : gmap V ndarray) (a : App) : App :=
  mk_App (activeView a) (vegaViews a) (brushes a) (Some d) (needsUpdate a)
    (views a) (db a).
Definition set_needsUpdate (b : bool) (a : App) : App :=
  mk_App (activeView a) (vegaViews a) (brushes a) (data a) b
    (views a) (db a).
Definition set_views (vs : Views) (a : App) : App :=
  mk_App (activeView a) (vegaViews a) (brushes a) (data a) (needsUpdate a)
    vs (db a).

(** ** The monad of methods *)

Record Outcome (A : Type) : Type := mk_Outcome {
  state : App;
  effects : list Effect;
  result : option A   (** [None]: an exception was thrown *)
}.
Arguments mk_Outcome {A}.
Arguments state {A}.
Arguments effects {A}.
Arguments result {A}.

Definition M (A : Type) : Type := App -> Outcome A.

#[export] Instance M_ret : MRet M :=
  fun A (x : A) s => mk_Outcome s [] (Some x).

#[export] Instance M_bind : MBind M :=
  fun A B (f : A -> M B) (m : M A) s =>
    match m s with
    | mk_Outcome s1 out1 (Some x) =>
        match f x s1 with
        | mk_Outcome s2 out2 r => mk_Outcome s2 (out1 ++ out2) r
        end
    | mk_Outcome s1 out1 None => mk_Outcome s1 out1 None
    end.

Definition throw {A : Type} : M A := fun s => mk_Outcome s [] None.
Definition gets {A : Type} (f : App -> A) : M A :=
  fun s => mk_Outcome s [] (Some (f s)).
Definition modify (f : App -> App) : M unit :=
  fun s => mk_Outcome (f s) [] (Some tt).
Definition emit (e : Effect) : M unit :=
  fun s => mk_Outcome s [e] (Some tt).

(** [for (const x of l) body(x)] *)
Fixpoint for_each {A : Type} (l : list A) (body : A -> M unit) : M unit :=
  match l with
  | [] => mret tt
  | x :: l' => body x ;; for_each l' body
  end.

(** ** The methods of [App] *)

Section Controller.

(** [HISTOGRAM_WIDTH] of [./view] (the resolution of the cubes) and [bin] of
    [./util] (vega's binning of an extent into at most [maxbins] bins) are
    not under [src/]: the methods are parametric in them. *)
Variable HISTOGRAM_WIDTH : Z.
Variable bin : Z -> Interval -> BinConfig.

(** [this.vegaViews.get(name)!.runAfter(...)]: throws on a view that was
    never created. *)
Definition on_vegaView (n : V) (e : Effect) : M unit :=
  vv ← gets vegaViews;
  if decide (n ∈ vv) then emit e else throw.

Definition updateView (n : V) (d : JsArray) : M unit :=
  on_vegaView n (Change n d).

(** The table of a histogram: one [{key, value}] per index of the first
    axis. *)
Definition table1D (unbin : Z -> Q) (hist : ndarray) : JsArray :=
  foldl
    (fun d x =>
       array_set d x (Datum1D (unbin (Z.of_nat x)) (nd_get hist [Z.of_nat x])))
    (new_Array (nd_size hist))
    (seq 0 (hd 0%nat (shape hist))).

Definition update1DView (n : V) (view : Dimension) (hist : ndarray)
  : M unit :=
  match binConfig view with
  | None => throw   (* binToData(undefined) *)
  | Some c => updateView n (table1D (binToData c) hist)
  end.

(** The table of a heatmap: the loops run [x] outside and [y] inside and
    fill the slots [0, 1, 2, ...]. *)
Definition table2D (binToDataX binToDataY : Z -> Q) (heat : ndarray)
  : JsArray :=
  snd
    (foldl
       (fun '(i, d) '(x, y) =>
          (S i,
           array_set d i
             (Datum2D (binToDataX (Z.of_nat x)) (binToDataY (Z.of_nat y))
                (nd_get heat [Z.of_nat x; Z.of_nat y]))))
       (0%nat, new_Array (nd_size heat))
       (flat_map
          (fun x => map (pair x) (seq 0 (hd 0%nat (tl (shape heat)))))
          (seq 0 (hd 0%nat (shape heat))))).

Definition update2DView (n : V) (view : Dimension * Dimension)
    (heat : ndarray) : M unit :=
  match binConfig (fst view), binConfig (snd view) with
  | Some cx, Some cy =>
      updateView n (table2D (binToData cx) (binToData cy) heat)
  | _, _ => throw   (* binToData(undefined) *)
  end.

(** [this.views.get(this.activeView)!]: [undefined] when there is none. *)
Definition getActiveView : M (option View) :=
  gets (fun s => n ← activeView s; views_get (views s) n).

(** A view name is truthy unless it is the empty string. *)
Definition truthy_name (o : option V) : option V :=
  match o with
  | Some n => if decide (n = ""%string) then None else Some n
  | None => None
  end.

Definition switchActiveView (n : V) : M unit :=
  old ← gets activeView;
  match truthy_name old with
  | Some o => on_vegaView o (SignalActive o false)
  | None => mret tt
  end;;
  modify (set_activeView n);;
  active ← getActiveView;
  match active with
  | None => throw   (* is1DView(undefined) *)
  | Some av =>
      b0 ← gets brushes;
      let b := match av with
               | View1D dim => delete (name dim) b0   (* is1DView(activeView) *)
               | View2D _ => b0
               end in
      vs ← gets views;
      d ← gets db;
      emit (LoadData av HISTOGRAM_WIDTH (omit vs n) b);;
      modify (set_data (loadData d av HISTOGRAM_WIDTH (omit vs n) b));;
      on_vegaView n (SignalActive n true)
  end.

Definition brushMove (n : V) (dimension : D) (value : option Interval)
  : M unit :=
  cur ← gets activeView;
  (if decide (cur = Some n) then mret tt else switchActiveView n);;
  (* delete or set brush *)
  match value with
  | None => modify (fun s => set_brushes (delete dimension (brushes s)) s)
  | Some v =>
      modify (fun s => set_brushes (<[dimension := extent v]> (brushes s)) s)
  end;;
  modify (set_needsUpdate true);;
  emit RequestAnimationFrame.

(** The brush of the active view in the pixel domain. *)
Definition activeBrushOf (activeBinF : Q -> Z) (brush : option Interval)
  : option (Z * Z) :=
  match brush with
  | Some b =>
      Some (clamp (activeBinF (fst b)) (0, HISTOGRAM_WIDTH - 1),
            clamp (activeBinF (snd b)) (0, HISTOGRAM_WIDTH - 1))
  | None => None
  end.

(** The aggregate of one passive view read from its cube [hists]. *)
Definition aggregate (activeBrush : option (Z * Z)) (hists : ndarray)
  : ndarray :=
  match activeBrush with
  | Some ab => diff (pick (fst ab) hists) (pick (snd ab) hists)
  | None => pick HISTOGRAM_WIDTH hists
  end.

(** The body of the loop of [update], for one entry of [this.views]. *)
Definition update_view (activeBrush : option (Z * Z)) (nv : V * View)
  : M unit :=
  let '(n, view) := nv in
  cur ← gets activeView;
  if decide (Some n = cur) then mret tt   (* continue *)
  else
    cubes ← gets data;
    match cubes ≫= (.!! n) with
    | None => throw   (* this.data.get(name) is undefined *)
    | Some hists =>
        match view with
        | View1D d1 => update1DView n d1 (aggregate activeBrush hists)
        | View2D d2 => update2DView n d2 (aggregate activeBrush hists)
        end
    end.

Definition update : M unit :=
  dirty ← gets needsUpdate;
  if negb dirty then mret tt   (* Skipped update *)
  else
    modify (set_needsUpdate false);;
    active ← getActiveView;
    match active with
    | Some (View1D dim) =>
        let activeBinF :=
          binNumberFunction
            {| start := fst (dim_extent dim);
               step := stepSize (dim_extent dim) HISTOGRAM_WIDTH |} in
        brush ← gets (fun s => brushes s !! name dim);
        let activeBrush := activeBrushOf activeBinF brush in
        vs ← gets views;
        for_each vs (update_view activeBrush)
    | _ => throw   (* no active view, or one without a [dimension] *)
    end.

(** Replace the view stored under a name, keeping its place in the map. *)
Fixpoint views_set (vs : Views) (n : V) (v : View) : Views :=
  match vs with
  | [] => []
  | (k, w) :: vs' =>
      if decide (k = n) then (k, v) :: vs' else (k, w) :: views_set vs' n v
  end.

Definition with_binConfig (d : Dimension) : Dimension :=
  mk_Dimension (name d) (bins d) (dim_extent d)
    (Some (bin (bins d) (dim_extent d))).

(** The body of the [each] of [initialize], for one name of [order].  The
    listeners it registers are described by [listens] below. *)
Definition initialize_view (n : V) : M unit :=
  vs ← gets views;
  match views_get vs n with
  | None => throw   (* is1DView(undefined) *)
  | Some (View1D dim) =>
      let dim' := with_binConfig dim in
      modify (fun s => set_views (views_set (views s) n (View1D dim')) s);;
      modify (fun s => set_vegaViews ({[n]} ∪ vegaViews s) s);;
      d ← gets db;
      update1DView n dim' (histogram d dim')
  | Some (View2D (dx, dy)) =>
      let dims' := (with_binConfig dx, with_binConfig dy) in
      modify (fun s => set_views (views_set (views s) n (View2D dims')) s);;
      modify (fun s => set_vegaViews ({[n]} ∪ vegaViews s) s);;
      d ← gets db;
      update2DView n dims' (heatmap d dims')
  end.

Definition initialize (order : list V) : M unit :=
  for_each order initialize_view.

(** [new App(el, views, order, db)]: the field initialisers, then
    [initialize]. *)
Definition new_App (vs : Views) (order : list V) (d : DataBase)
  : Outcome unit :=
  initialize order (mk_App None ∅ ∅ None false vs d).

(** ** The event loop

    The browser delivers the events the constructor registered listeners
    for, and at the next frame runs the callbacks queued by
    [requestAnimationFrame]. *)

Record World : Type := mk_World {
  app : App;
  frames : nat   (** callbacks queued for the next animation frame *)
}.

Inductive Event : Type :=
| Mouseover (n : V)
| BrushSignal (n : V) (value : option Interval)
| AnimationFrame.

(** The views with a ["brush"] and a ["mouseover"] listener: the 1D views
    that [initialize] went through. *)
Definition listens (a : App) (n : V) : option Dimension :=
  if decide (n ∈ vegaViews a) then
    match views_get (views a) n with
    | Some (View1D dim) => Some dim
    | _ => None
    end
  else None.

(** The [mouseover] listener of the view [n]. *)
Definition mouseover (n : V) : M unit :=
  cur ← gets activeView;
  if decide (cur = Some n) then mret tt else switchActiveView n.

(** The queued callbacks run one after the other; each is [update], and
    one that throws does not stop the next. *)
Fixpoint run_callbacks (k : nat) (a : App) : App * list Effect :=
  match k with
  | O => (a, [])
  | S k' =>
      let o := update a in
      let r := run_callbacks k' (state o) in
      (fst r, effects o ++ snd r)
  end.

Definition is_request (e : Effect) : bool :=
  match e with
  | RequestAnimationFrame => true
  | _ => false
  end.

Definition scheduled (es : list Effect) : nat :=
  length (List.filter is_request es).

(** One event: the world after it and the calls made while handling it;
    [None] when no listener exists for the event. *)
Definition dispatch (e : Event) (w : World) : option (World * list Effect) :=
  match e with
  | Mouseover n =>
      match listens (app w) n with
      | Some _ =>
          let o := mouseover n (app w) in
          Some (mk_World (state o) (frames w + scheduled (effects o)),
                effects o)
      | None => None
      end
  | BrushSignal n value =>
      match listens (app w) n with
      | Some dim =>
          let o := brushMove n (name dim) value (app w) in
          Some (mk_World (state o) (frames w + scheduled (effects o)),
                effects o)
      | None => None
      end
  | AnimationFrame =>
      let r := run_callbacks (frames w) (app w) in
      Some (mk_World (fst r) 0, snd r)
  end.

Fixpoint run_events (es : list Event) (w : World)
  : option (World * list Effect) :=
  match es with
  | [] => Some (w, [])
  | e :: es' =>
      match dispatch e w with
      | Some (w1, out1) =>
          match run_events es' w1 with
          | Some (w2, out2) => Some (w2, out1 ++ out2)
          | None => None
          end
      | None => None
      end
  end.

(** The worlds an application constructed from [vs], [order] and [d] can
    be in. *)
Definition reachable (vs : Views) (order : list V) (d : DataBase)
    (w : World) : Prop :=
  let o := new_App vs order d in
  result o = Some tt /\
  exists es out, run_events es (mk_World (state o) 0) = Some (w, out).

End Controller.

(** ** The server configuration

    The views of the configuration module and their index by name. *)

Module Config.

Inductive View : Type :=
| View1D (name title dimension : string) (range : Interval) (bins : Z)
| View2D (name title : string) (dimensions : string * string)
    (ranges : Interval * Interval) (bins : Z * Z).

Definition name (v : View) : string :=
  match v with
  | View1D n _ _ _ _ => n
  | View2D n _ _ _ _ => n
  end.

(** The property names of a view object. *)
Definition fields (v : View) : list string :=
  match v with
  | View1D _ _ _ _ _ =>
      ["type"; "name"; "title"; "dimension"; "range"; "bins"]
  | View2D _ _ _ _ _ =>
      ["type"; "name"; "title"; "dimensions"; "ranges"; "bins"]
  end%string.

Definition views : list View :=
  [ View1D "ARR_DELAY" "Arrival Delay" "ARR_DELAY" (-10, 100)%Q 25;
    View1D "DISTANCE" "Distance" "DISTANCE" (50, 2000)%Q 25;
    View1D "DEP_DELAY" "Departure Delay" "DEP_DELAY" (-10, 100)%Q 25;
    View2D "DEP_DELAY_ARR_DELAY" "Delay Matrix" ("DEP_DELAY", "ARR_DELAY")
      ((-10, 100), (-10, 100))%Q (25, 25) ]%string.

(** The properties every plain object inherits from [Object.prototype]. *)
Definition Object_prototype : list string :=
  [ "constructor"; "hasOwnProperty"; "isPrototypeOf";
    "propertyIsEnumerable"; "toLocaleString"; "toString"; "valueOf";
    "__proto__"; "__defineGetter__"; "__defineSetter__";
    "__lookupGetter__"; "__lookupSetter__" ]%string.

(** The index object, a plain [{}] that only ever gets views assigned: its
    own properties, and its prototype when that is no longer
    [Object.prototype] but a view. *)
Record Index : Type := mk_Index {
  own : gmap string View;
  proto : option View
}.

(** [let idx = {}] *)
Definition empty : Index := mk_Index ∅ None.

(** [idx[d.name] = d]: the name ["__proto__"] is the setter of the
    prototype and adds no property. *)
Definition assign (idx : Index) (d : View) : Index :=
  if decide (name d = "__proto__"%string) then mk_Index (own idx) (Some d)
  else mk_Index (<[name d := d]> (own idx)) (proto idx).

(** [views.forEach(d => { idx[d.name] = d; })] *)
Definition index (vs : list View) : Index := foldl assign empty vs.

Definition viewIndex : Index := index views.

(** What a read [idx[n]] gives: a view (one stored under [n], or the
    prototype through the getter ["__proto__"]), something else inherited
    along the prototype chain, or [undefined]. *)
Inductive Read : Type :=
| Found (v : View)
| Inherited
| Undefined.

Definition read (idx : Index) (n : string) : Read :=
  match own idx !! n with
  | Some v => Found v
  | None =>
      if decide (n = "__proto__"%string) then
        match proto idx with
        | Some p => Found p
        | None => Inherited   (* Object.prototype *)
        end
      else if decide (n ∈ Object_prototype) then Inherited
      else match proto idx with
           | Some p => if decide (n ∈ fields p) then Inherited else Undefined
           | None => Undefined
           end
  end.

End Config.

(** ** A small application to run the model on *)

Module Flights.

Definition dim (n : D) (b : Z) (lo hi : Q) : Dimension :=
  mk_Dimension n b (lo, hi) None.

(** The views of the flights configuration; the heatmap is binned 2 by 2
    to keep its cube small. *)
Definition views : Views :=
  [ ("ARR_DELAY"%string, View1D (dim "ARR_DELAY" 25 (-10) 100));
    ("DISTANCE"%string, View1D (dim "DISTANCE" 25 50 2000));
    ("DEP_DELAY"%string, View1D (dim "DEP_DELAY" 25 (-10) 100));
    ("DEP_DELAY_ARR_DELAY"%string,
      View2D (dim "DEP_DELAY" 2 (-10) 100, dim "ARR_DELAY" 2 (-10) 100)) ].

Definition order : list V :=
  ["ARR_DELAY"; "DISTANCE"; "DEP_DELAY"; "DEP_DELAY_ARR_DELAY"]%string.

(** Equal-width bins. *)
Definition bin (maxbins : Z) (e : Interval) : BinConfig :=
  {| start := fst e; step := stepSize e maxbins |}.

Definition view_shape (v : View) : list nat :=
  match v with
  | View1D d => [Z.to_nat (bins d)]
  | View2D (dx, dy) => [Z.to_nat (bins dx); Z.to_nat (bins dy)]
  end.

(** A database whose cubes count [i * (j + 1)] rows in cell [j] of slice
    [i]. *)
Definition cube (pixels : Z) (v : View) : ndarray :=
  let per := fold_right Nat.mul 1%nat (view_shape v) in
  ndarray_of
    (i ← seq 0 (Z.to_nat pixels + 1);
     j ← seq 0 per;
     [Num (Z.of_nat i * (Z.of_nat j + 1))])
    ((Z.to_nat pixels + 1)%nat :: view_shape v).

Definition database : DataBase :=
  {| histogram := fun d =>
       ndarray_of (replicate (Z.to_nat (bins d)) (Num 1)) [Z.to_nat (bins d)];
     heatmap := fun '(dx, dy) =>
       ndarray_of (replicate (Z.to_nat (bins dx * bins dy)) (Num 1))
         [Z.to_nat (bins dx); Z.to_nat (bins dy)];
     loadData := fun _ pixels passive _ =>
       list_to_map (map (fun '(n, v) => (n, cube pixels v)) passive) |}.

Definition started : World :=
  mk_World (state (new_App bin views order database)) 0.

(** The dimension of the first view once [initialize] has binned it. *)
Definition arr_delay : Dimension :=
  with_binConfig bin (dim "ARR_DELAY" 25 (-10) 100).

Definition distance : Dimension :=
  with_binConfig bin (dim "DISTANCE" 25 50 2000).

(** The application after a brush [[50, 10]] was dragged on [ARR_DELAY]. *)
Definition brushed (W : Z) : App :=
  state (brushMove W "ARR_DELAY" "ARR_DELAY" (Some (50, 10)%Q) (app started)).

(** The world after that brush, its animation frame still to come. *)
Definition dragged (W : Z) : World := mk_World (brushed W) 1.

(** Two brush signals in a row on [ARR_DELAY], and the world and the calls
    after them. *)
Definition burst : list Event :=
  [BrushSignal "ARR_DELAY" (Some (50, 10)%Q);
   BrushSignal "ARR_DELAY" (Some (20, 30)%Q)].

Definition after_burst (W : Z) : World * list Effect :=
  default (started, []) (run_events W burst started).

End Flights.

(** * The vocabulary of the properties *)

(** [idx] is an index of an array of shape [sh]. *)
Definition in_bounds (sh : list nat) (idx : list Z) : Prop :=
  Forall2 (fun n i => 0 <= i < Z.of_nat n) sh idx.

Ltac msimpl :=
  cbn [state effects result app frames
       activeView vegaViews brushes data needsUpdate views db
       set_activeView set_vegaViews set_brushes set_data set_needsUpdate
       set_views option_bind negb fst snd] in *.

Ltac munfold :=
  unfold mbind, M_bind, mret, M_ret, gets, modify, emit, throw in *;
  msimpl.

(** A computation that neither throws nor writes a field. *)
Definition quiet {A : Type} (m : M A) (s : App) : Prop :=
  state (m s) = s /\ is_Some (result (m s)).

(** The table a view receives for the aggregate [agg]. *)
Definition rendered (view : View) (agg : ndarray) (tbl : JsArray) : Prop :=
  match view with
  | View1D d =>
      exists c, binConfig d = Some c /\ tbl = table1D (binToData c) agg
  | View2D (dx, dy) =>
      exists cx cy, binConfig dx = Some cx /\ binConfig dy = Some cy /\
        tbl = table2D (binToData cx) (binToData cy) agg
  end.

(** [agg] is the element-wise difference [hi - lo]. *)
Definition is_difference (agg hi lo : ndarray) : Prop :=
  shape agg = shape lo /\
  forall idx, in_bounds (shape lo) idx ->
    nd_get agg idx = cell_sub (nd_get hi idx) (nd_get lo idx).

(** [initialize] has given the dimensions of the view their bins. *)
Definition configured (view : View) : bool :=
  match view with
  | View1D d => bool_decide (is_Some (binConfig d))
  | View2D (dx, dy) =>
      bool_decide (is_Some (binConfig dx)) &&
      bool_decide (is_Some (binConfig dy))
  end.

(** Every passive view has a vega view, a bin configuration and a cube. *)
Definition ready (s : App) : bool :=
  forallb
    (fun '(n, view) =>
       bool_decide (Some n = activeView s) ||
       (bool_decide (n ∈ vegaViews s) &&
        bool_decide (is_Some (data s ≫= (.!! n))) &&
        configured view))
    (views s).

(** What the first view to be updated receives in its first bin. *)
Definition first_delivery (es : list Effect) : option (V * option Datum) :=
  match es with
  | Change n tbl :: _ => Some (n, mjoin (tbl !! 0%nat))
  | _ => None
  end.

(** The filter context of a cube build: the brushes without the one on the
    dimension of the (1D) active view. *)
Definition filterContext (av : View) (b : gmap D Interval)
  : gmap D Interval :=
  match av with
  | View1D dim => delete (name dim) b
  | View2D _ => b
  end.

(** The signal sent to the view that stops being active. *)
Definition deactivation (s : App) : list Effect :=
  match truthy_name (activeView s) with
  | Some old => [SignalActive old false]
  | None => []
  end.

(** The write of [brushMove] to the brushes: "delete or set brush". *)
Definition brush_write (d : D) (value : option Interval)
    (b : gmap D Interval) : gmap D Interval :=
  match value with
  | None => delete d b
  | Some v => <[d := extent v]> b
  end.

(** The first statement of [brushMove]. *)
Definition activate (W : Z) (n : V) (s : App) : Outcome unit :=
  if decide (activeView s = Some n) then mk_Outcome s [] (Some tt)
  else switchActiveView W n s.

(** The events of the ["brush"] signal. *)
Definition is_brush (e : Event) : bool :=
  match e with
  | BrushSignal _ _ => true
  | _ => false
  end.

(** The calls that hand a table to a view. *)
Definition is_change (e : Effect) : bool :=
  match e with
  | Change _ _ => true
  | _ => false
  end.

(** The active view, if any, is a 1D view that has its listeners. *)
Definition active_listens (a : App) : Prop :=
  forall act, activeView a = Some act -> is_Some (listens a act).

(** The stored cubes are those of the active view under the current
    filter context: the brushes without the one on the active dimension. *)
Definition cubes_current (W : Z) (a : App) : Prop :=
  forall act dim,
    activeView a = Some act ->
    views_get (views a) act = Some (View1D dim) ->
    data a =
      Some (loadData (db a) (View1D dim) W (omit (views a) act)
              (delete (name dim) (brushes a))).

(** The invariant of the controller. *)
Definition inv (W : Z) (a : App) : Prop :=
  active_listens a /\ cubes_current W a.

(** ** The vocabulary of the further properties *)

(** A view after [initialize] has binned its dimensions. *)
Definition binned (bin : Z -> Interval -> BinConfig) (v : View) : View :=
  match v with
  | View1D d => View1D (with_binConfig bin d)
  | View2D (dx, dy) => View2D (with_binConfig bin dx, with_binConfig bin dy)
  end.

(** The table [initialize] draws a view with: the unfiltered histogram or
    heatmap of the database, keyed by the bins of the view. *)
Definition first_table (bin : Z -> Interval -> BinConfig) (d : DataBase)
    (v : View) : JsArray :=
  match v with
  | View1D dim =>
      table1D (binToData (bin (bins dim) (dim_extent dim)))
        (histogram d (with_binConfig bin dim))
  | View2D (dx, dy) =>
      table2D (binToData (bin (bins dx) (dim_extent dx)))
        (binToData (bin (bins dy) (dim_extent dy)))
        (heatmap d (with_binConfig bin dx, with_binConfig bin dy))
  end.

(** A database whose [loadData] returns a cube for every passive view it
    is asked for. *)
Definition builds_all_cubes (d : DataBase) : Prop :=
  forall av px (passive : Views) b n,
    n ∈ passive.*1 -> is_Some (loadData d av px passive b !! n).

(** A dirty flag comes with a queued callback and an active view. *)
Definition update_pending (w : World) : Prop :=
  needsUpdate (app w) = true ->
  (0 < frames w)%nat /\ is_Some (activeView (app w)).

(** What the constructor leaves behind and no handler touches. *)
Definition same_setup (a b : App) : Prop :=
  views b = views a /\ vegaViews b = vegaViews a /\ db b = db a.

(** * Properties *)

(** ** Arrays *)

Lemma lookup_blocks {A B : Type} (g : A -> list B) (m : nat) (l : list A) :
  (forall x, length (g x) = m) ->
  forall i r, (r < m)%nat ->
    flat_map g l !! (i * m + r)%nat = l !! i ≫= fun x => g x !! r.
Proof.
  intros Hg. induction l as [|x l IH]; intros i r Hr.
  - destruct i; reflexivity.
  - destruct i as [|i]; cbn [flat_map].
    + rewrite lookup_app_l by (rewrite Hg; lia). reflexivity.
    + rewrite lookup_app_r by (rewrite Hg; lia).
      rewrite Hg. replace (S i * m + r - m)%nat with (i * m + r)%nat by lia.
      apply IH, Hr.
Qed.

Lemma length_indices (sh : list nat) :
  length (indices sh) = fold_right Nat.mul 1%nat sh.
Proof.
  induction sh as [|n sh IH]; [reflexivity|].
  cbn [indices fold_right].
  generalize 0%nat at 1. induction n as [|n IHn]; intros k; [reflexivity|].
  cbn [seq flat_map]. rewrite length_app, length_map, IH, IHn. lia.
Qed.

Lemma dot_bound (sh : list nat) (idx : list Z) :
  in_bounds sh idx ->
  0 <= dot (row_major sh) idx < Z.of_nat (fold_right Nat.mul 1%nat sh).
Proof.
  induction 1 as [|n i sh idx Hi _ IH]; [cbn; lia|].
  cbn [row_major dot fold_right]. nia.
Qed.

Lemma lookup_indices (sh : list nat) (idx : list Z) :
  in_bounds sh idx ->
  indices sh !! Z.to_nat (dot (row_major sh) idx) = Some idx.
Proof.
  induction 1 as [|n i sh idx Hi Hb IH]; [reflexivity|].
  cbn [row_major dot indices].
  pose proof (dot_bound _ _ Hb) as Hd.
  set (m := fold_right Nat.mul 1%nat sh) in *.
  replace (Z.to_nat (Z.of_nat m * i + dot (row_major sh) idx))
    with (Z.to_nat i * m + Z.to_nat (dot (row_major sh) idx))%nat by nia.
  rewrite (lookup_blocks _ m).
  - rewrite lookup_seq_lt by lia. cbn.
    rewrite list_lookup_fmap, IH. cbn. f_equal. f_equal. lia.
  - intros x. rewrite length_map. apply length_indices.
  - lia.
Qed.

Lemma data_at_lookup (d : list cell) (k : Z) (c : cell) :
  0 <= k -> d !! Z.to_nat k = Some c -> data_at d k = c.
Proof.
  intros Hk Hl. unfold data_at.
  destruct (Z.ltb_spec k 0); [lia|].
  by apply nth_lookup_Some.
Qed.

(** [diff a b] holds [b - a] at every index of [a]. *)
Lemma nd_get_diff (a b : ndarray) (idx : list Z) :
  in_bounds (shape a) idx ->
  nd_get (diff a b) idx = cell_sub (nd_get b idx) (nd_get a idx).
Proof.
  intros Hb. unfold diff, nd_get at 1. cbn.
  rewrite Z.add_0_l.
  apply data_at_lookup; [apply (dot_bound _ _ Hb)|].
  by rewrite list_lookup_fmap, (lookup_indices _ _ Hb).
Qed.

Lemma shape_diff (a b : ndarray) : shape (diff a b) = shape a.
Proof. reflexivity. Qed.

Lemma shape_pick (i : Z) (a : ndarray) :
  0 <= i -> shape (pick i a) = tl (shape a).
Proof. intros Hi. unfold pick. by destruct (Z.leb_spec 0 i); [|lia]. Qed.

(** ** The monad *)

Lemma for_each_cons {A : Type} (x : A) (l : list A) (body : A -> M unit)
    (s : App) :
  quiet (body x) s ->
  for_each (x :: l) body s =
    mk_Outcome (state (for_each l body s))
      (effects (body x s) ++ effects (for_each l body s))
      (result (for_each l body s)).
Proof.
  intros [Hs [[] Hr]]. cbn [for_each]. munfold.
  destruct (body x s) as [s1 out1 r1]. cbn in Hs, Hr. subst s1 r1.
  by destruct (for_each l body s).
Qed.

(** ** What [update] hands to the views *)

Lemma update_view_active (W : Z) (ab : option (Z * Z)) (n : V) (view : View)
    (s : App) :
  activeView s = Some n ->
  update_view W ab (n, view) s = mk_Outcome s [] (Some tt).
Proof.
  intros Ha. unfold update_view. munfold. rewrite Ha.
  by destruct (decide (Some n = Some n)).
Qed.

Lemma update_view_passive (W : Z) (ab : option (Z * Z)) (n : V)
    (view : View) (s : App) (hists : ndarray) :
  Some n <> activeView s ->
  n ∈ vegaViews s ->
  configured view = true ->
  data s ≫= (.!! n) = Some hists ->
  exists tbl,
    rendered view (aggregate W ab hists) tbl /\
    update_view W ab (n, view) s = mk_Outcome s [Change n tbl] (Some tt).
Proof.
  intros Hn Hv Hc Hd. unfold update_view. munfold.
  destruct (decide (Some n = activeView s)) as [|_]; [done|].
  rewrite Hd. destruct view as [d|[dx dy]]; cbn in Hc.
  - apply bool_decide_eq_true in Hc as [c Hc].
    exists (table1D (binToData c) (aggregate W ab hists)). split; [by exists c|].
    unfold update1DView, updateView, on_vegaView. rewrite Hc. munfold.
    by destruct (decide (n ∈ vegaViews s)).
  - apply andb_true_iff in Hc as [Hx Hy].
    apply bool_decide_eq_true in Hx as [cx Hx].
    apply bool_decide_eq_true in Hy as [cy Hy].
    exists (table2D (binToData cx) (binToData cy) (aggregate W ab hists)).
    split; [by exists cx, cy|].
    unfold update2DView, updateView, on_vegaView. cbn [fst snd].
    rewrite Hx, Hy. munfold.
    by destruct (decide (n ∈ vegaViews s)).
Qed.

(** The loop of [update]: nothing for the active view, one [Change] for
    each of the others, in the order of the map. *)
Lemma update_loop (W : Z) (ab : option (Z * Z)) (s : App) (act : V)
    (vs : Views) :
  activeView s = Some act ->
  forallb
    (fun '(n, view) =>
       bool_decide (Some n = activeView s) ||
       (bool_decide (n ∈ vegaViews s) &&
        bool_decide (is_Some (data s ≫= (.!! n))) &&
        configured view)) vs = true ->
  let o := for_each vs (update_view W ab) s in
  state o = s /\ result o = Some tt /\
  Forall2
    (fun '(n, view) e =>
       exists hists tbl,
         data s ≫= (.!! n) = Some hists /\
         rendered view (aggregate W ab hists) tbl /\
         e = Change n tbl)
    (omit vs act) (effects o).
Proof.
  intros Ha. induction vs as [|[n view] vs IH]; intros Hr.
  - cbn. by repeat split.
  - cbn [forallb] in Hr. apply andb_true_iff in Hr as [Hx Hr].
    specialize (IH Hr) as (IHs & IHr & IHe). unfold omit in *.
    destruct (decide (n = act)) as [->|Hne].
    + rewrite for_each_cons
        by (unfold quiet; rewrite update_view_active by done;
            split; [done|by eexists]).
      rewrite update_view_active by done. cbn [state effects result app].
      rewrite filter_cons. cbn [fst]. destruct (decide (act <> act)); [done|].
      auto.
    + apply orb_true_iff in Hx as [Hx|Hx];
        [apply bool_decide_eq_true in Hx; congruence|].
      apply andb_true_iff in Hx as [Hx Hc].
      apply andb_true_iff in Hx as [Hv Hd].
      apply bool_decide_eq_true in Hv. apply bool_decide_eq_true in Hd.
      destruct Hd as [hists Hd].
      destruct (update_view_passive W ab n view s hists) as (tbl & Ht & Hu);
        [congruence|done..|].
      rewrite for_each_cons
        by (unfold quiet; rewrite Hu; split; [done|by eexists]).
      rewrite Hu. cbn [state effects result app].
      rewrite filter_cons. cbn [fst]. destruct (decide (n <> act)); [|done].
      repeat split; [done..|]. constructor; [|done]. by exists hists, tbl.
Qed.

Lemma ready_set_needsUpdate (b : bool) (s : App) :
  ready (set_needsUpdate b s) = ready s.
Proof. reflexivity. Qed.

(** [update] on a dirty state whose views are ready: the flag is cleared
    and every passive view, in the order of the map, receives the table of
    its aggregate. *)
Lemma update_effects (W : Z) (s : App) (act : V) (dim : Dimension) :
  needsUpdate s = true ->
  activeView s = Some act ->
  views_get (views s) act = Some (View1D dim) ->
  ready s = true ->
  let activeBinF :=
    binNumberFunction
      {| start := fst (dim_extent dim);
         step := stepSize (dim_extent dim) W |} in
  let ab := activeBrushOf W activeBinF (brushes s !! name dim) in
  let o := update W s in
  state o = set_needsUpdate false s /\ result o = Some tt /\
  Forall2
    (fun '(n, view) e =>
       exists hists tbl,
         data s ≫= (.!! n) = Some hists /\
         rendered view (aggregate W ab hists) tbl /\
         e = Change n tbl)
    (omit (views s) act) (effects o).
Proof.
  intros Hd Ha Hv Hr activeBinF ab o.
  destruct (update_loop W ab (set_needsUpdate false s) act (views s) Ha Hr)
    as (Hs & Hres & He).
  subst o. unfold update, getActiveView. munfold.
  rewrite Hd. cbn [negb state effects result set_needsUpdate activeView views].
  rewrite Ha. cbn [mbind option_bind]. rewrite Hv.
  cbn [state effects result brushes views set_needsUpdate].
  fold activeBinF. fold ab.
  change (mk_App (activeView s) (vegaViews s) (brushes s) (data s) false
            (views s) (db s)) with (set_needsUpdate false s).
  destruct (for_each (views s) (update_view W ab) (set_needsUpdate false s))
    as [s2 out2 r].
  cbn [state effects result app] in *. subst s2 r. auto.
Qed.

(** C1. When [update] runs (the dirty flag is set, a 1D view is active and
    every passive view has its cube, vega view and bin configuration), it
    completes and hands exactly one table to each passive view, in the order
    of the map, and none to the active view.  The aggregate behind the
    table is, with no brush on the active dimension, the slice of the
    view's cube at index [HISTOGRAM_WIDTH], taken as it is; with a brush it
    is the element-wise difference of the slices at the two snapped
    indices, upper minus lower. *)
Theorem update_delivers_cube_slices (W : Z) (s : App) (act : V)
    (dim : Dimension) :
  needsUpdate s = true ->
  activeView s = Some act ->
  views_get (views s) act = Some (View1D dim) ->
  ready s = true ->
  let activeBinF :=
    binNumberFunction
      {| start := fst (dim_extent dim);
         step := stepSize (dim_extent dim) W |} in
  let o := update W s in
  result o = Some tt /\
  Forall2
    (fun '(n, view) e =>
       exists hists agg tbl,
         data s ≫= (.!! n) = Some hists /\
         rendered view agg tbl /\
         e = Change n tbl /\
         match brushes s !! name dim with
         | None => agg = pick W hists
         | Some brush =>
             exists loIndex hiIndex,
               activeBrushOf W activeBinF (Some brush)
                 = Some (loIndex, hiIndex) /\
               is_difference agg (pick hiIndex hists) (pick loIndex hists)
         end)
    (omit (views s) act) (effects o).
Proof.
  intros Hd Ha Hv Hr activeBinF o.
  destruct (update_effects W s act dim Hd Ha Hv Hr) as (_ & Hres & He).
  split; [exact Hres|].
  eapply Forall2_impl; [exact He|].
  intros [n view] e (hists & tbl & Hh & Ht & ->).
  exists hists, (aggregate W
    (activeBrushOf W activeBinF (brushes s !! name dim)) hists), tbl.
  split; [done|]. split; [done|]. split; [done|].
  destruct (brushes s !! name dim) as [brush|]; [|reflexivity].
  eexists _, _. split; [reflexivity|]. cbn [aggregate fst snd].
  split; [apply shape_diff|]. intros idx Hb. by apply nd_get_diff.
Qed.

Lemma update_delivers_cube_slices_witness :
  result (update 4 (Flights.brushed 4)) = Some tt.
Proof.
  refine (proj1 (update_delivers_cube_slices 4 (Flights.brushed 4)
                   "ARR_DELAY" Flights.arr_delay _ _ _ _));
    vm_compute; reflexivity.
Defined.

(** ** Snapping to the nearest boundary *)

Lemma Math_round_bounds (x : Q) :
  (inject_Z (Math_round x) - (1 # 2) <= x)%Q /\
  (x < inject_Z (Math_round x) + (1 # 2))%Q.
Proof.
  unfold Math_round.
  pose proof (Qfloor_le (x + (1 # 2))) as Hlo.
  pose proof (Qlt_floor (x + (1 # 2))) as Hhi.
  rewrite inject_Z_plus in Hhi. change (inject_Z 1) with 1%Q in Hhi.
  split; lra.
Qed.

(** The index that [binNumberFunction] gives to [v] is that of a boundary
    nearest to [v], among the boundaries [start + j * step] of all
    indices [j]. *)
Lemma binNumberFunction_nearest (c : BinConfig) (v : Q) (j : Z) :
  (0 < step c)%Q ->
  (Qabs (v - binToData c (binNumberFunction c v))
   <= Qabs (v - binToData c j))%Q.
Proof.
  intros Hstep. unfold binNumberFunction, binToData.
  set (t := ((v - start c) / step c)%Q).
  set (i := Math_round t).
  assert (v - start c == t * step c)%Q as Hv.
  { unfold t. field. lra. }
  destruct (Math_round_bounds t) as [Hlo Hhi]. fold i in Hlo, Hhi.
  assert (forall k : Z,
            v - (start c + inject_Z k * step c)
            == (t - inject_Z k) * step c)%Q as Hk.
  { intros k. lra. }
  rewrite (Hk i), (Hk j), !Qabs_Qmult, (Qabs_pos (step c)) by lra.
  apply Qmult_le_compat_r; [|lra].
  assert (Qabs (t - inject_Z i) <= 1 # 2)%Q as Hi.
  { apply Qabs_case; intros; lra. }
  destruct (Z.eq_dec j i) as [->|Hne]; [lra|].
  eapply Qle_trans; [exact Hi|].
  destruct (Z_lt_le_dec j i) as [Hlt|Hge].
  - assert (inject_Z j + 1 <= inject_Z i)%Q.
    { change 1%Q with (inject_Z 1). rewrite <- inject_Z_plus, <- Zle_Qle.
      lia. }
    apply Qabs_case; intros; lra.
  - assert (inject_Z i + 1 <= inject_Z j)%Q.
    { change 1%Q with (inject_Z 1). rewrite <- inject_Z_plus, <- Zle_Qle.
      lia. }
    apply Qabs_case; intros; lra.
Qed.

(** Whatever the brush, both snapped indices lie in
    [[0, HISTOGRAM_WIDTH - 1]]. *)
Lemma activeBrushOf_range (W : Z) (f : Q -> Z) (brush : Interval)
    (lo hi : Z) :
  0 < W ->
  activeBrushOf W f (Some brush) = Some (lo, hi) ->
  0 <= lo <= W - 1 /\ 0 <= hi <= W - 1.
Proof.
  intros HW [= <- <-]. unfold clamp. cbn [fst snd]. lia.
Qed.

(** An endpoint at the upper end of the extent lies on the boundary of
    index [HISTOGRAM_WIDTH]. *)
Lemma binNumberFunction_max (W : Z) (ext : Interval) :
  0 < W -> (fst ext < snd ext)%Q ->
  binNumberFunction {| start := fst ext; step := stepSize ext W |} (snd ext)
  = W.
Proof.
  intros HW Hext. unfold binNumberFunction, Math_round, stepSize.
  cbn [start step].
  assert (0 < inject_Z W)%Q as HWq
    by (change 0%Q with (inject_Z 0); rewrite <- Zlt_Qlt; lia).
  assert ((ext.2 - ext.1) / ((ext.2 - ext.1) / inject_Z W) + (1 # 2)
          == inject_Z W + (1 # 2))%Q as ->.
  { field. split; lra. }
  apply Z.le_antisymm.
  - apply Z.lt_succ_r. rewrite Zlt_Qlt.
    eapply Qle_lt_trans; [apply Qfloor_le|].
    unfold Z.succ. rewrite inject_Z_plus. change (inject_Z 1) with 1%Q. lra.
  - rewrite <- (Qfloor_Z W) at 1. apply Qfloor_resp_le. lra.
Qed.

(** ** The scenario of the spec *)

Lemma scenario_indices (ext brush : Interval) :
  (fst ext == -10)%Q -> (snd ext == 100)%Q ->
  (fst brush == 10)%Q -> (snd brush == 50)%Q ->
  activeBrushOf 500
    (binNumberFunction {| start := fst ext; step := stepSize ext 500 |})
    (Some brush) = Some (91, 273).
Proof.
  intros He0 He1 Hb0 Hb1.
  unfold activeBrushOf, binNumberFunction, Math_round, stepSize.
  cbn [start step].
  rewrite He0, He1, Hb0, Hb1. reflexivity.
Qed.

(** C3. The scenario of the spec: the active dimension [ARR_DELAY] has the
    extent [[-10, 100]], the resolution is 500 and the brush on it is
    [[10, 50]].  The brush snaps to the indices 91 and 273, and [update]
    hands to every passive view the table of [Cube[273] - Cube[91]], the
    element-wise difference of these two slices of the view's cube. *)
Theorem scenario_arr_delay (s : App) (dim : Dimension) (brush : Interval) :
  needsUpdate s = true ->
  activeView s = Some "ARR_DELAY"%string ->
  views_get (views s) "ARR_DELAY" = Some (View1D dim) ->
  ready s = true ->
  (fst (dim_extent dim) == -10)%Q -> (snd (dim_extent dim) == 100)%Q ->
  brushes s !! name dim = Some brush ->
  (fst brush == 10)%Q -> (snd brush == 50)%Q ->
  let activeBinF :=
    binNumberFunction
      {| start := fst (dim_extent dim);
         step := stepSize (dim_extent dim) 500 |} in
  let o := update 500 s in
  activeBinF (fst brush) = 91 /\ activeBinF (snd brush) = 273 /\
  activeBrushOf 500 activeBinF (Some brush) = Some (91, 273) /\
  result o = Some tt /\
  Forall2
    (fun '(n, view) e =>
       exists hists agg tbl,
         data s ≫= (.!! n) = Some hists /\
         is_difference agg (pick 273 hists) (pick 91 hists) /\
         rendered view agg tbl /\
         e = Change n tbl)
    (omit (views s) "ARR_DELAY") (effects o).
Proof.
  intros Hd Ha Hv Hr He0 He1 Hb Hb0 Hb1 activeBinF o.
  destruct (update_effects 500 s _ dim Hd Ha Hv Hr) as (_ & Hres & He).
  pose proof (scenario_indices _ _ He0 He1 Hb0 Hb1) as Hi.
  fold activeBinF in Hi, He. rewrite Hb, Hi in He.
  split; [|split]; [| |split; [exact Hi|split; [exact Hres|]]].
  - subst activeBinF. unfold binNumberFunction, Math_round, stepSize.
    cbn [start step]. rewrite He0, He1, Hb0. reflexivity.
  - subst activeBinF. unfold binNumberFunction, Math_round, stepSize.
    cbn [start step]. rewrite He0, He1, Hb1. reflexivity.
  - eapply Forall2_impl; [exact He|].
    intros [n view] e (hists & tbl & Hh & Ht & ->).
    exists hists, (aggregate 500 (Some (91, 273)) hists), tbl.
    split; [done|]. split; [|done]. split; [apply shape_diff|].
    intros idx Hidx. by apply nd_get_diff.
Qed.

Lemma scenario_arr_delay_witness :
  result (update 500 (Flights.brushed 500)) = Some tt.
Proof.
  refine (proj1 (proj2 (proj2 (proj2
            (scenario_arr_delay (Flights.brushed 500) Flights.arr_delay
               (10, 50)%Q _ _ _ _ _ _ _ _ _)))));
    vm_compute; reflexivity.
Defined.

(** C2. On the extent [[-10, 100]] at resolution 500 the value 100 lies on
    the last boundary: rounding to the nearest boundary gives the index 500,
    the index of the slice that [update] reads when there is no brush.  The
    brush [[10, 100]] is nevertheless snapped to [(91, 499)]: [update] clamps
    into [[0, HISTOGRAM_WIDTH - 1]].  In the flights application, whose
    cubes hold [i * (j + 1)] in bin [j] of slice [i], the first bin of
    [DISTANCE] gets [499 - 91 = 408], not the [500 - 91 = 409] of the slices
    500 and 91. *)
Theorem snap_stops_short_of_last_boundary :
  let activeBinF :=
    binNumberFunction
      {| start := -10; step := stepSize (-10, 100)%Q 500 |} in
  activeBinF 100%Q = 500 /\
  clamp (activeBinF 100%Q) (0, 500) = 500 /\
  activeBrushOf 500 activeBinF (Some (10, 100)%Q) = Some (91, 499) /\
  let s :=
    state (brushMove 500 "ARR_DELAY" "ARR_DELAY" (Some (10, 100)%Q)
             (app Flights.started)) in
  first_delivery (effects (update 500 s))
    = Some ("DISTANCE"%string, Some (Datum1D (1250 # 25) (Num 408))).
Proof.
  cbv zeta. split; [reflexivity|]. split; [reflexivity|].
  split; [reflexivity|]. vm_compute. reflexivity.
Qed.

(** ** Switching the active view *)

Lemma switchActiveView_cases (W : Z) (n : V) (s : App) :
  let o := switchActiveView W n s in
  (exists old, truthy_name (activeView s) = Some old /\
     (old ∉ vegaViews s) /\ o = mk_Outcome s [] None) \/
  match views_get (views s) n with
  | None => o = mk_Outcome (set_activeView n s) (deactivation s) None
  | Some av =>
      let b := filterContext av (brushes s) in
      let s' :=
        set_data (loadData (db s) av W (omit (views s) n) b)
          (set_activeView n s) in
      o = mk_Outcome s'
            (deactivation s ++
               (LoadData av W (omit (views s) n) b ::
                  (if decide (n ∈ vegaViews s) then [SignalActive n true]
                   else [])))
            (if decide (n ∈ vegaViews s) then Some tt else None)
  end.
Proof.
  unfold switchActiveView, deactivation, on_vegaView, getActiveView.
  munfold.
  destruct (truthy_name (activeView s)) as [old|] eqn:Hold;
    [destruct (decide (old ∈ vegaViews s)) as [Hin|Hin];
       [|left; by exists old]|];
    right; msimpl;
    (destruct (views_get (views s) n) as [av|]; msimpl; [|reflexivity]);
    (destruct av as [dim|dims]; cbn [filterContext];
     destruct (decide (n ∈ vegaViews s)); reflexivity).
Qed.

(** C10. [switchActiveView] leaves the brushes of the controller as they
    are, whatever the view and whether or not the call completes; the
    filter context it hands to [loadData] is a copy from which the brush of
    the new active view's dimension has been removed, and only that one. *)
Theorem switchActiveView_keeps_brushes (W : Z) (n : V) (s : App) :
  let o := switchActiveView W n s in
  brushes (state o) = brushes s /\
  forall av px passive b,
    In (LoadData av px passive b) (effects o) ->
    views_get (views s) n = Some av /\
    b = filterContext av (brushes s) /\
    forall dim, av = View1D dim ->
      b !! name dim = None /\
      forall k, k <> name dim -> b !! k = brushes s !! k.
Proof.
  cbv zeta.
  destruct (switchActiveView_cases W n s) as [(old & _ & _ & ->)|H].
  { split; [reflexivity|]. intros av px passive b []. }
  destruct (views_get (views s) n) as [av0|]; cbv zeta in H; rewrite H;
    cbn [state effects result]; (split; [reflexivity|]);
    intros av px passive b Hin.
  - assert (av = av0 /\ b = filterContext av0 (brushes s)) as [-> ->].
    { apply in_app_or in Hin as [Hin|[Hin|Hin]].
      - unfold deactivation in Hin.
        destruct (truthy_name (activeView s)); [|done].
        by destruct Hin as [Hin|[]].
      - by injection Hin as <- _ _ <-.
      - destruct (decide (n ∈ vegaViews s)); [|done].
        by destruct Hin as [Hin|[]]. }
    split; [done|]. split; [done|].
    intros dim ->. cbn [filterContext]. split; [apply lookup_delete_eq|].
    intros k Hk. by apply lookup_delete_ne.
  - unfold deactivation in Hin.
    destruct (truthy_name (activeView s)); [|done].
    by destruct Hin as [Hin|[]].
Qed.

(** ** Frame properties *)

Lemma bind_state {A B : Type} (P : App -> Prop) (m : M A) (f : A -> M B)
    (s : App) :
  P (state (m s)) ->
  (forall x s1, P s1 -> P (state (f x s1))) ->
  P (state ((m ≫= f) s)).
Proof.
  intros Hm Hf. unfold mbind, M_bind.
  destruct (m s) as [s1 out1 [x|]]; cbn in *; [|done].
  specialize (Hf x s1 Hm). by destruct (f x s1).
Qed.

Lemma for_each_preserves {A : Type} (P : App -> Prop) (l : list A)
    (body : A -> M unit) :
  (forall x s, P s -> P (state (body x s))) ->
  forall s, P s -> P (state (for_each l body s)).
Proof.
  intros Hbody. induction l as [|x l IH]; intros s Hs; [done|].
  cbn [for_each]. apply bind_state; [by apply Hbody|].
  intros _ s1 Hs1. by apply IH.
Qed.

Lemma on_vegaView_state (n : V) (e : Effect) (s : App) :
  state (on_vegaView n e s) = s.
Proof.
  unfold on_vegaView. munfold. by destruct (decide (n ∈ vegaViews s)).
Qed.

Lemma update1DView_state (n : V) (view : Dimension) (hist : ndarray)
    (s : App) :
  state (update1DView n view hist s) = s.
Proof.
  unfold update1DView, updateView.
  destruct (binConfig view); [apply on_vegaView_state|reflexivity].
Qed.

Lemma update2DView_state (n : V) (view : Dimension * Dimension)
    (heat : ndarray) (s : App) :
  state (update2DView n view heat s) = s.
Proof.
  unfold update2DView, updateView.
  destruct (binConfig view.1), (binConfig view.2);
    first [apply on_vegaView_state|reflexivity].
Qed.

Lemma update_view_state (W : Z) (ab : option (Z * Z)) (nv : V * View)
    (s : App) :
  state (update_view W ab nv s) = s.
Proof.
  destruct nv as [n view]. unfold update_view. munfold.
  destruct (decide (Some n = activeView s)); [reflexivity|].
  destruct (option_bind _ _ _ (data s)) as [hists|]; [|reflexivity].
  destruct view as [d1|d2].
  - pose proof (update1DView_state n d1 (aggregate W ab hists) s) as H.
    by destruct (update1DView n d1 (aggregate W ab hists) s).
  - pose proof (update2DView_state n d2 (aggregate W ab hists) s) as H.
    by destruct (update2DView n d2 (aggregate W ab hists) s).
Qed.

(** [update] writes nothing but the dirty flag, and always leaves it
    clear, also when it throws. *)
Lemma update_state (W : Z) (s : App) :
  state (update W s) = set_needsUpdate false s.
Proof.
  unfold update, getActiveView. munfold.
  destruct (needsUpdate s) eqn:Hd; msimpl.
  - destruct (activeView s) as [act|]; msimpl; [|reflexivity].
    destruct (views_get (views s) act) as [[dim|dims]|];
      msimpl; try reflexivity.
    pose proof (for_each_preserves (fun s1 => s1 = set_needsUpdate false s)
                  (views s)
                  (update_view W
                     (activeBrushOf W
                        (binNumberFunction
                           {| start := (dim_extent dim).1;
                              step := stepSize (dim_extent dim) W |})
                        (brushes s !! name dim)))) as H.
    specialize (H (fun x s1 Hs1 => eq_trans (update_view_state _ _ x s1) Hs1)
                  _ eq_refl).
    unfold set_needsUpdate in H at 1. msimpl.
    by destruct (for_each _ _ _).
  - destruct s; cbn in *. by subst.
Qed.

(** ** Moving a brush *)

Lemma brushMove_cases (W : Z) (n : V) (d : D) (value : option Interval)
    (s : App) :
  brushMove W n d value s =
    match result (activate W n s) with
    | Some _ =>
        mk_Outcome
          (set_needsUpdate true
             (set_brushes (brush_write d value (brushes (state (activate W n s))))
                (state (activate W n s))))
          (effects (activate W n s) ++ [RequestAnimationFrame])
          (Some tt)
    | None =>
        mk_Outcome (state (activate W n s)) (effects (activate W n s)) None
    end.
Proof.
  unfold brushMove, activate. munfold.
  destruct (decide (activeView s = Some n)) as [Ha|Ha]; msimpl.
  - destruct value; reflexivity.
  - destruct (switchActiveView W n s) as [s1 out1 [[]|]]; msimpl;
      [|reflexivity].
    destruct value; reflexivity.
Qed.

Lemma switchActiveView_brushes (W : Z) (n : V) (s : App) :
  brushes (state (switchActiveView W n s)) = brushes s.
Proof.
  destruct (switchActiveView_cases W n s) as [(old & _ & _ & ->)|H];
    [reflexivity|].
  destruct (views_get (views s) n); cbv zeta in H; by rewrite H.
Qed.

Lemma activate_brushes (W : Z) (n : V) (s : App) :
  brushes (state (activate W n s)) = brushes s.
Proof.
  unfold activate. destruct (decide (activeView s = Some n));
    [reflexivity|apply switchActiveView_brushes].
Qed.

Lemma extent_ordered (v : Interval) : (fst (extent v) <= snd (extent v))%Q.
Proof.
  unfold extent. destruct (Qle_bool v.1 v.2) eqn:H; cbn [fst snd].
  - by apply Qle_bool_iff.
  - apply Qlt_le_weak, Qnot_le_lt. intros Hle.
    apply Qle_bool_iff in Hle. congruence.
Qed.

Lemma extent_swap (a b : Q) :
  (fst (extent (a, b)) == fst (extent (b, a)))%Q /\
  (snd (extent (a, b)) == snd (extent (b, a)))%Q.
Proof.
  unfold extent. cbn [fst snd].
  destruct (Qle_bool a b) eqn:Hab, (Qle_bool b a) eqn:Hba; cbn [fst snd];
    try (split; reflexivity).
  - apply Qle_bool_iff in Hab, Hba.
    split; [by apply Qle_antisym|by apply Qle_antisym].
  - exfalso. destruct (Qlt_le_dec a b) as [Hlt|Hle].
    + apply Qlt_le_weak, Qle_bool_iff in Hlt. congruence.
    + apply Qle_bool_iff in Hle. congruence.
Qed.

(** C6. A [brushMove] on the view that is already active sets or removes
    the brush, raises the dirty flag and asks for an animation frame, and
    that is all: no [loadData] call is made and the cubes stored in [data]
    are the ones that were there before. *)
Theorem brushMove_on_active_keeps_cubes (W : Z) (n : V) (d : D)
    (value : option Interval) (s : App) :
  activeView s = Some n ->
  let o := brushMove W n d value s in
  result o = Some tt /\
  data (state o) = data s /\
  effects o = [RequestAnimationFrame] /\
  (forall av px passive b, ~ In (LoadData av px passive b) (effects o)) /\
  needsUpdate (state o) = true /\
  activeView (state o) = Some n /\
  brushes (state o) !! d = (extent <$> value) /\
  forall k, k <> d -> brushes (state o) !! k = brushes s !! k.
Proof.
  intros Ha o. subst o. rewrite brushMove_cases. unfold activate.
  destruct (decide (activeView s = Some n)); [|done]. msimpl.
  repeat split; try done.
  - intros av px passive b [H|[]]. discriminate H.
  - destruct value; cbn; [apply lookup_insert_eq|apply lookup_delete_eq].
  - intros k Hk.
    destruct value; cbn; [by apply lookup_insert_ne|by apply lookup_delete_ne].
Qed.

Lemma brushMove_on_active_keeps_cubes_witness :
  data (state (brushMove 4 "ARR_DELAY" "ARR_DELAY" (Some (20, 30)%Q)
                 (Flights.brushed 4)))
  = data (Flights.brushed 4).
Proof.
  refine (proj1 (proj2 (brushMove_on_active_keeps_cubes 4 "ARR_DELAY"
                          "ARR_DELAY" (Some (20, 30)%Q) (Flights.brushed 4) _))).
  vm_compute; reflexivity.
Defined.

(** C9. A [brushMove] with an interval stores it with its endpoints in
    order: whichever way round the two endpoints come, the entry of the
    dimension is the pair (smaller, larger).  So if every stored brush has
    [lo <= hi] before a [brushMove], every stored brush has it afterwards. *)
Theorem brushMove_stores_ordered_interval (W : Z) (n : V) (d : D)
    (a b : Q) (s : App) :
  let o := brushMove W n d (Some (a, b)) s in
  let o' := brushMove W n d (Some (b, a)) s in
  (result o = Some tt ->
     exists lo hi, brushes (state o) !! d = Some (lo, hi) /\
       (lo <= hi)%Q /\
       exists lo' hi', brushes (state o') !! d = Some (lo', hi') /\
         (lo == lo')%Q /\ (hi == hi')%Q /\
         ((lo == a)%Q /\ (hi == b)%Q \/ (lo == b)%Q /\ (hi == a)%Q)) /\
  ((forall k lo hi, brushes s !! k = Some (lo, hi) -> (lo <= hi)%Q) ->
   forall k lo hi, brushes (state o) !! k = Some (lo, hi) -> (lo <= hi)%Q).
Proof.
  cbv zeta. rewrite !brushMove_cases.
  destruct (result (activate W n s)) as [[]|] eqn:Hr; msimpl.
  - split.
    + intros _. cbn [brush_write]. rewrite !lookup_insert_eq.
      exists (extent (a, b)).1, (extent (a, b)).2.
      split; [by destruct (extent (a, b))|].
      split; [apply extent_ordered|].
      exists (extent (b, a)).1, (extent (b, a)).2.
      split; [by destruct (extent (b, a))|].
      destruct (extent_swap a b) as [H1 H2]. split; [done|]. split; [done|].
      unfold extent. cbn [fst snd].
      destruct (Qle_bool a b); cbn [fst snd]; [left|right]; split; reflexivity.
    + intros Hs k lo hi. cbn [brush_write]. rewrite activate_brushes.
      destruct (decide (d = k)) as [->|Hk].
      * rewrite lookup_insert_eq. intros [= He].
        pose proof (extent_ordered (a, b)) as H. by rewrite He in H.
      * rewrite lookup_insert_ne by done. apply Hs.
  - split; [done|]. rewrite activate_brushes. auto.
Qed.

Lemma brushMove_stores_ordered_interval_witness :
  exists lo hi,
    brushes (state (brushMove 4 "ARR_DELAY" "ARR_DELAY" (Some (50, 10)%Q)
                      (app Flights.started))) !! "ARR_DELAY"%string
      = Some (lo, hi) /\ (lo <= hi)%Q.
Proof.
  assert (result (brushMove 4 "ARR_DELAY" "ARR_DELAY" (Some (50, 10)%Q)
                    (app Flights.started)) = Some tt) as Hr
    by (vm_compute; reflexivity).
  destruct (proj1 (brushMove_stores_ordered_interval 4 "ARR_DELAY"
                     "ARR_DELAY" 50 10 (app Flights.started)) Hr)
    as (lo & hi & Hl & Hle & _).
  exists lo, hi. split; [exact Hl|exact Hle].
Defined.

(** ** Coalescing of updates *)

Lemma update_clean (W : Z) (s : App) :
  needsUpdate s = false -> update W s = mk_Outcome s [] (Some tt).
Proof. intros H. unfold update. munfold. by rewrite H. Qed.

Lemma run_callbacks_clean (W : Z) (k : nat) (s : App) :
  needsUpdate s = false -> run_callbacks W k s = (s, []).
Proof.
  intros H. induction k as [|k IH]; [reflexivity|].
  cbn [run_callbacks]. rewrite (update_clean W s H). msimpl. by rewrite IH.
Qed.

(** However many callbacks were queued, together they do what one
    [update] does. *)
Lemma run_callbacks_once (W : Z) (k : nat) (s : App) :
  run_callbacks W (S k) s = (state (update W s), effects (update W s)).
Proof.
  cbn [run_callbacks]. rewrite run_callbacks_clean.
  - cbn [fst snd]. by rewrite app_nil_r.
  - by rewrite update_state.
Qed.

Lemma activate_quiet (W : Z) (n : V) (s : App) :
  needsUpdate (state (activate W n s)) = needsUpdate s /\
  List.filter is_change (effects (activate W n s)) = [] /\
  scheduled (effects (activate W n s)) = 0%nat.
Proof.
  unfold activate, scheduled.
  destruct (decide (activeView s = Some n)); [done|].
  destruct (switchActiveView_cases W n s) as [(old & _ & _ & ->)|H]; [done|].
  destruct (views_get (views s) n); cbv zeta in H; rewrite H; msimpl;
    unfold deactivation; destruct (truthy_name (activeView s));
    try destruct (decide (n ∈ vegaViews s)); done.
Qed.

Lemma brushMove_schedules (W : Z) (n : V) (d : D) (value : option Interval)
    (s : App) :
  let o := brushMove W n d value s in
  List.filter is_change (effects o) = [] /\
  match result o with
  | Some _ => needsUpdate (state o) = true /\ scheduled (effects o) = 1%nat
  | None =>
      needsUpdate (state o) = needsUpdate s /\ scheduled (effects o) = 0%nat
  end.
Proof.
  cbv zeta. rewrite brushMove_cases.
  destruct (activate_quiet W n s) as (Hn & Hc & Hs).
  destruct (result (activate W n s)); msimpl; [|done].
  unfold scheduled in *.
  rewrite !List.filter_app, Hc, length_app. cbn. by rewrite Hs.
Qed.

Lemma brush_events_spec (W : Z) (evs : list Event) :
  forallb is_brush evs = true ->
  forall w w1 out1,
    run_events W evs w = Some (w1, out1) ->
    List.filter is_change out1 = [] /\
    (frames w <= frames w1)%nat /\
    (needsUpdate (app w) = true \/ (frames w < frames w1)%nat ->
     needsUpdate (app w1) = true).
Proof.
  induction evs as [|e evs IH]; intros Hb w w1 out1 Hrun.
  - cbn in Hrun. injection Hrun as <- <-. repeat split; [lia|].
    intros [H|H]; [done|lia].
  - cbn [forallb] in Hb. apply andb_true_iff in Hb as [He Hb].
    destruct e as [|n value|]; try discriminate He.
    cbn [run_events dispatch] in Hrun.
    destruct (listens (app w) n) as [dim|]; [|discriminate Hrun].
    destruct (run_events W evs _) as [[w2 out2]|] eqn:Hrest;
      [|discriminate Hrun].
    injection Hrun as <- <-.
    destruct (IH Hb _ _ _ Hrest) as (Hc & Hf & Hd). cbn [app frames] in *.
    destruct (brushMove_schedules W n (name dim) value (app w)) as (Hc1 & Hr).
    cbv zeta in Hc1, Hr.
    split; [by rewrite List.filter_app, Hc1, Hc|].
    split; [lia|].
    intros Hpre. apply Hd.
    destruct (result (brushMove W n (name dim) value (app w)));
      destruct Hr as [Hr1 Hr2]; [by left|].
    rewrite Hr1, Hr2 in *. destruct Hpre as [Hpre|Hpre]; [by left|right; lia].
Qed.

(** ** Reachable worlds *)

Lemma listens_Some (s : App) (n : V) (dim : Dimension) :
  listens s n = Some dim <->
  n ∈ vegaViews s /\ views_get (views s) n = Some (View1D dim).
Proof.
  unfold listens. destruct (decide (n ∈ vegaViews s)) as [Hin|Hin].
  - split.
    + intros H. split; [done|].
      destruct (views_get (views s) n) as [[d1|d2]|]; by inversion H.
    + intros [_ ->]. done.
  - split; [done|]. intros [? _]. done.
Qed.

Lemma truthy_name_Some (o : option V) (n : V) :
  truthy_name o = Some n -> o = Some n.
Proof.
  destruct o as [m|]; [|done]. cbn.
  destruct (decide (m = ""%string)); [done|]. by intros [= ->].
Qed.

Lemma switchActiveView_listening (W : Z) (n : V) (s : App)
    (dim : Dimension) :
  listens s n = Some dim ->
  active_listens s ->
  switchActiveView W n s =
    mk_Outcome
      (set_data
         (loadData (db s) (View1D dim) W (omit (views s) n)
            (delete (name dim) (brushes s)))
         (set_activeView n s))
      (deactivation s ++
         [LoadData (View1D dim) W (omit (views s) n)
            (delete (name dim) (brushes s));
          SignalActive n true])
      (Some tt).
Proof.
  intros Hl Ha. apply listens_Some in Hl as [Hin Hv].
  destruct (switchActiveView_cases W n s) as [(old & Hold & Hnin & _)|H].
  - apply truthy_name_Some in Hold.
    destruct (Ha old Hold) as [d Hd]. apply listens_Some in Hd as [? _]. done.
  - rewrite Hv in H. cbv zeta in H. rewrite H. cbn [filterContext].
    by destruct (decide (n ∈ vegaViews s)).
Qed.

Lemma inv_after_switch (W : Z) (n : V) (s : App) (dim : Dimension) :
  listens s n = Some dim ->
  inv W s ->
  inv W (state (switchActiveView W n s)).
Proof.
  intros Hl [Ha Hc]. rewrite (switchActiveView_listening W n s dim Hl Ha).
  msimpl. split.
  - intros act. msimpl. intros [= <-]. by exists dim.
  - intros act d. msimpl. intros [= <-] Hv.
    apply listens_Some in Hl as [_ Hv']. rewrite Hv' in Hv.
    by injection Hv as ->.
Qed.

Lemma inv_after_mouseover (W : Z) (n : V) (s : App) (dim : Dimension) :
  listens s n = Some dim ->
  inv W s ->
  inv W (state (mouseover W n s)).
Proof.
  intros Hl Hi. unfold mouseover. munfold.
  destruct (decide (activeView s = Some n)); msimpl; [done|].
  pose proof (inv_after_switch W n s dim Hl Hi) as H.
  by destruct (switchActiveView W n s).
Qed.

Lemma delete_brush_write (d : D) (value : option Interval)
    (b : gmap D Interval) :
  delete d (brush_write d value b) = delete d b.
Proof.
  destruct value; cbn; [apply delete_insert_eq|apply delete_delete_eq].
Qed.

Lemma inv_after_activate (W : Z) (n : V) (s : App) (dim : Dimension) :
  listens s n = Some dim ->
  inv W s ->
  inv W (state (activate W n s)) /\
  activeView (state (activate W n s)) = Some n /\
  views (state (activate W n s)) = views s /\
  vegaViews (state (activate W n s)) = vegaViews s /\
  result (activate W n s) = Some tt.
Proof.
  intros Hl Hi. unfold activate.
  destruct (decide (activeView s = Some n)); [done|].
  split; [by apply (inv_after_switch W n s dim)|].
  destruct Hi as [Ha _].
  by rewrite (switchActiveView_listening W n s dim Hl Ha).
Qed.

Lemma inv_after_brushMove (W : Z) (n : V) (value : option Interval)
    (s : App) (dim : Dimension) :
  listens s n = Some dim ->
  inv W s ->
  inv W (state (brushMove W n (name dim) value s)).
Proof.
  intros Hl Hi. rewrite brushMove_cases.
  destruct (inv_after_activate W n s dim Hl Hi)
    as ([Ha Hc] & Hact & Hvs & Hvv & ->).
  msimpl. split.
  - intros act Hact'. apply (Ha act Hact').
  - intros act d. msimpl. intros Hact' Hv.
    rewrite Hact in Hact'. injection Hact' as <-.
    assert (d = dim) as ->.
    { apply listens_Some in Hl as [_ Hv']. rewrite Hvs, Hv' in Hv.
      by injection Hv. }
    rewrite delete_brush_write. by apply Hc.
Qed.

Lemma inv_set_needsUpdate (W : Z) (b : bool) (s : App) :
  inv W s -> inv W (set_needsUpdate b s).
Proof. intros [Ha Hc]. split; [exact Ha|exact Hc]. Qed.

Lemma inv_after_callbacks (W : Z) (k : nat) (s : App) :
  inv W s -> inv W (fst (run_callbacks W k s)).
Proof.
  revert s. induction k as [|k IH]; intros s Hi; [done|].
  cbn [run_callbacks fst]. apply IH. rewrite update_state.
  by apply inv_set_needsUpdate.
Qed.

Lemma inv_after_dispatch (W : Z) (e : Event) (w w' : World)
    (out : list Effect) :
  dispatch W e w = Some (w', out) ->
  inv W (app w) -> inv W (app w').
Proof.
  intros Hd Hi. destruct e as [n|n value|]; cbn [dispatch] in Hd.
  - destruct (listens (app w) n) as [dim|] eqn:Hl; [|done].
    injection Hd as <- _. by apply (inv_after_mouseover W n _ dim).
  - destruct (listens (app w) n) as [dim|] eqn:Hl; [|done].
    injection Hd as <- _. by apply inv_after_brushMove.
  - injection Hd as <- _. by apply inv_after_callbacks.
Qed.

Lemma inv_after_events (W : Z) (es : list Event) :
  forall w w' out,
    run_events W es w = Some (w', out) ->
    inv W (app w) -> inv W (app w').
Proof.
  induction es as [|e es IH]; intros w w' out Hrun Hi.
  - cbn in Hrun. by injection Hrun as <- _.
  - cbn [run_events] in Hrun.
    destruct (dispatch W e w) as [[w1 out1]|] eqn:Hd; [|done].
    destruct (run_events W es w1) as [[w2 out2]|] eqn:Hr; [|done].
    injection Hrun as <- _.
    eapply IH; [exact Hr|]. eapply inv_after_dispatch; [exact Hd|exact Hi].
Qed.

Lemma initialize_view_activeView (bin : Z -> Interval -> BinConfig) (n : V)
    (s : App) :
  activeView (state (initialize_view bin n s)) = activeView s.
Proof.
  unfold initialize_view. munfold.
  destruct (views_get (views s) n) as [[dim|[dx dy]]|]; msimpl;
    [| |reflexivity].
  - unfold update1DView, updateView, on_vegaView. cbn [binConfig with_binConfig].
    munfold. by destruct (decide _).
  - unfold update2DView, updateView, on_vegaView.
    cbn [binConfig with_binConfig fst snd]. munfold. by destruct (decide _).
Qed.

Lemma new_App_activeView (bin : Z -> Interval -> BinConfig) (vs : Views)
    (order : list V) (d : DataBase) :
  activeView (state (new_App bin vs order d)) = None.
Proof.
  unfold new_App, initialize.
  apply (for_each_preserves (fun s => activeView s = None)); [|reflexivity].
  intros n s Hs. by rewrite initialize_view_activeView.
Qed.

(** Both invariants hold in every world the application can reach. *)
Lemma reachable_inv (W : Z) (bin : Z -> Interval -> BinConfig) (vs : Views)
    (order : list V) (d : DataBase) (w : World) :
  reachable W bin vs order d w -> inv W (app w).
Proof.
  intros (_ & es & out & Hrun).
  eapply inv_after_events; [exact Hrun|]. cbn [app].
  pose proof (new_App_activeView bin vs order d) as Hn.
  split; intros act; [|intros dim]; rewrite Hn; done.
Qed.

(** ** Coalescing, from the brush to the frame *)

(** In a world that satisfies the invariant every brush signal completes:
    each of them sets the dirty flag and queues one callback. *)
Lemma brush_events_complete (W : Z) (evs : list Event) :
  forallb is_brush evs = true ->
  forall w w1 out1,
    inv W (app w) ->
    run_events W evs w = Some (w1, out1) ->
    frames w1 = (frames w + length evs)%nat /\
    (evs <> [] -> needsUpdate (app w1) = true).
Proof.
  induction evs as [|e evs IH]; intros Hb w w1 out1 Hi Hrun.
  - cbn in Hrun. injection Hrun as <- _. cbn. split; [lia|done].
  - cbn [forallb] in Hb. apply andb_true_iff in Hb as [He Hb].
    destruct e as [|n value|]; try discriminate He.
    cbn [run_events] in Hrun.
    destruct (dispatch W (BrushSignal n value) w) as [[w0 out0]|] eqn:Hd;
      [|discriminate Hrun].
    destruct (run_events W evs w0) as [[w2 out2]|] eqn:Hrest;
      [|discriminate Hrun].
    injection Hrun as <- _.
    pose proof (inv_after_dispatch _ _ _ _ _ Hd Hi) as Hi0.
    destruct (IH Hb _ _ _ Hi0 Hrest) as [Hf Hn].
    cbn [dispatch] in Hd.
    destruct (listens (app w) n) as [dim|] eqn:Hl; [|discriminate Hd].
    injection Hd as <- _. cbn [app frames] in *.
    destruct (inv_after_activate W n (app w) dim Hl Hi)
      as (_ & _ & _ & _ & Hr).
    destruct (brushMove_schedules W n (name dim) value (app w)) as (_ & Hs).
    cbv zeta in Hs. revert Hs Hf Hn Hrest. rewrite brushMove_cases, Hr.
    msimpl. intros [Hflag Hs] Hf Hn Hrest. rewrite Hs in Hf.
    split; [cbn [length]; lia|]. intros _.
    destruct evs as [|e' evs']; [|by apply Hn].
    cbn in Hrest. by injection Hrest as <- _.
Qed.

(** C7. [brushMove] sets the dirty flag and queues the update: a call that
    completes leaves [needsUpdate] set and has asked for exactly one
    animation frame, a call that throws has done neither.  So after any
    non-empty burst of brush events in a reachable world the flag is set
    and as many callbacks are queued as there were events, while no view
    has been touched.  At the frame the queued callbacks together do
    exactly what a single [update] of the final state does: the first one
    runs on the brushes as they are then and clears the flag, the others
    find the flag clear and return without an effect, as does any later
    [update]; and an [update] on a clear flag is a no-op in any state. *)
Theorem updates_coalesce (W : Z) (evs : list Event) (w w1 : World)
    (out1 : list Effect) :
  forallb is_brush evs = true ->
  run_events W evs w = Some (w1, out1) ->
  (forall n d value s,
     let o := brushMove W n d value s in
     match result o with
     | Some _ =>
         needsUpdate (state o) = true /\ scheduled (effects o) = 1%nat
     | None =>
         needsUpdate (state o) = needsUpdate s /\
         scheduled (effects o) = 0%nat
     end) /\
  (forall s, needsUpdate s = false ->
     update W s = mk_Outcome s [] (Some tt)) /\
  (forall bin vs order d,
     reachable W bin vs order d w ->
     frames w1 = (frames w + length evs)%nat /\
     (evs <> [] -> needsUpdate (app w1) = true)) /\
  List.filter is_change out1 = [] /\
  ((frames w < frames w1)%nat -> needsUpdate (app w1) = true) /\
  exists w2 out2,
    dispatch W AnimationFrame w1 = Some (w2, out2) /\
    frames w2 = 0%nat /\
    (frames w1 = 0%nat -> app w2 = app w1 /\ out2 = []) /\
    ((0 < frames w1)%nat ->
       app w2 = state (update W (app w1)) /\
       out2 = effects (update W (app w1)) /\
       needsUpdate (app w2) = false /\
       update W (app w2) = mk_Outcome (app w2) [] (Some tt)).
Proof.
  intros Hb Hrun.
  destruct (brush_events_spec W evs Hb w w1 out1 Hrun) as (Hc & _ & Hd).
  split; [intros n d value s; apply brushMove_schedules|].
  split; [intros s; apply update_clean|].
  split.
  { intros bin vs order d Hr.
    apply (brush_events_complete W evs Hb w w1 out1); [|exact Hrun].
    by apply (reachable_inv W bin vs order d). }
  split; [exact Hc|]. split; [auto|].
  eexists _, _. split; [reflexivity|]. cbn [frames app].
  split; [reflexivity|]. split.
  - intros ->. done.
  - intros Hf. destruct (frames w1) as [|k]; [lia|].
    rewrite run_callbacks_once. cbn [fst snd].
    assert (needsUpdate (state (update W (app w1))) = false) as Hclean
      by (by rewrite update_state).
    repeat split; [exact Hclean|]. by apply update_clean.
Qed.

Lemma updates_coalesce_witness :
  List.filter is_change (Flights.after_burst 4).2 = [] /\
  frames (Flights.after_burst 4).1
  = (frames Flights.started + length Flights.burst)%nat /\
  needsUpdate (app (Flights.after_burst 4).1) = true.
Proof.
  assert (run_events 4 Flights.burst Flights.started
          = Some ((Flights.after_burst 4).1, (Flights.after_burst 4).2))
    as Hrun by (vm_compute; reflexivity).
  destruct (updates_coalesce 4 Flights.burst Flights.started _ _ eq_refl Hrun)
    as (_ & _ & Hreach & Hc & _).
  destruct (Hreach Flights.bin Flights.views Flights.order Flights.database)
    as [Hf Hn].
  { split; [vm_compute; reflexivity|]. exists [], []. reflexivity. }
  split; [exact Hc|]. split; [exact Hf|]. apply Hn. discriminate.
Defined.

(** ** The active view and the brushes *)

(** C4 as stated does not hold.  After a brush is dragged on [ARR_DELAY]
    in the flights application, [ARR_DELAY] is the active view and the
    brushes hold an entry for its own dimension: the brush that [update]
    reads. *)
Lemma brushes_hold_active_dimension :
  ~ (forall w,
       reachable 4 Flights.bin Flights.views Flights.order Flights.database w ->
       forall act dim,
         activeView (app w) = Some act ->
         views_get (views (app w)) act = Some (View1D dim) ->
         brushes (app w) !! name dim = None).
Proof.
  intros H.
  assert (reachable 4 Flights.bin Flights.views Flights.order
            Flights.database (Flights.dragged 4)) as Hr.
  { split; [vm_compute; reflexivity|].
    exists [BrushSignal "ARR_DELAY" (Some (50, 10)%Q)].
    eexists. vm_compute. reflexivity. }
  assert (activeView (Flights.brushed 4) = Some "ARR_DELAY"%string) as Ha
    by (vm_compute; reflexivity).
  assert (views_get (views (Flights.brushed 4)) "ARR_DELAY"
          = Some (View1D Flights.arr_delay)) as Hv
    by (vm_compute; reflexivity).
  assert (brushes (Flights.brushed 4) !! name Flights.arr_delay
          = Some (10, 50)%Q) as Hb
    by (vm_compute; reflexivity).
  pose proof (H _ Hr _ _ Ha Hv) as Hn.
  change (app (Flights.dragged 4)) with (Flights.brushed 4) in Hn.
  rewrite Hn in Hb. discriminate Hb.
Qed.

(** C4 (amended). In every world the application can reach, whenever a 1D
    view is active the cubes in [data] are the ones [loadData] built for
    that view under a filter context that has no entry for the active
    view's own dimension and agrees with the brushes of the controller on
    every other dimension.  The brushes themselves may hold an entry for
    the active dimension.  There is one [activeView] field, so at most one
    view is active. *)
Theorem cubes_exclude_active_dimension (W : Z)
    (bin : Z -> Interval -> BinConfig) (vs : Views) (order : list V)
    (d : DataBase) (w : World) (act : V) (dim : Dimension) :
  reachable W bin vs order d w ->
  activeView (app w) = Some act ->
  views_get (views (app w)) act = Some (View1D dim) ->
  exists ctx,
    data (app w) =
      Some (loadData (db (app w)) (View1D dim) W (omit (views (app w)) act)
              ctx) /\
    ctx !! name dim = None /\
    forall k, k <> name dim -> ctx !! k = brushes (app w) !! k.
Proof.
  intros Hr Ha Hv. destruct (reachable_inv _ _ _ _ _ _ Hr) as [_ Hc].
  exists (delete (name dim) (brushes (app w))).
  split; [by apply Hc|]. split; [apply lookup_delete_eq|].
  intros k Hk. by apply lookup_delete_ne.
Qed.

Lemma cubes_exclude_active_dimension_witness :
  exists ctx,
    data (app (Flights.dragged 4)) =
      Some (loadData (db (app (Flights.dragged 4)))
              (View1D Flights.arr_delay) 4
              (omit (views (app (Flights.dragged 4))) "ARR_DELAY") ctx) /\
    ctx !! name Flights.arr_delay = None /\
    forall k, k <> name Flights.arr_delay ->
      ctx !! k = brushes (app (Flights.dragged 4)) !! k.
Proof.
  apply (cubes_exclude_active_dimension 4 Flights.bin Flights.views
           Flights.order Flights.database (Flights.dragged 4) "ARR_DELAY"
           Flights.arr_delay).
  - split; [vm_compute; reflexivity|].
    exists [BrushSignal "ARR_DELAY" (Some (50, 10)%Q)].
    eexists. vm_compute. reflexivity.
  - vm_compute; reflexivity.
  - vm_compute; reflexivity.
Defined.



(** ** The tables handed to the views *)

Lemma array_set_next (pre rest : JsArray) (v : Datum) :
  array_set (pre ++ None :: rest) (length pre) v = pre ++ Some v :: rest.
Proof.
  unfold array_set.
  destruct (decide (length pre < length (pre ++ None :: rest))%nat) as [_|H].
  - rewrite insert_app_r_alt by lia. by rewrite Nat.sub_diag.
  - rewrite length_app in H. cbn in H. lia.
Qed.

Lemma fill_seq (f : nat -> Datum) (m r : nat) :
  forall pre : JsArray,
    foldl (fun d x => array_set d x (f x))
      (pre ++ replicate (m + r) None) (seq (length pre) m)
    = pre ++ ((Some ∘ f) <$> seq (length pre) m) ++ replicate r None.
Proof.
  induction m as [|m IH]; intros pre; [reflexivity|].
  cbn [seq foldl Nat.add replicate fmap list_fmap].
  rewrite array_set_next.
  specialize (IH (pre ++ [Some (f (length pre))])).
  rewrite length_app, Nat.add_1_r, <- !app_assoc in IH. exact IH.
Qed.

Lemma fill_counter (g : nat -> nat -> Datum) (l : list (nat * nat))
    (r : nat) :
  forall pre : JsArray,
    foldl (fun '(i, d) '(x, y) => (S i, array_set d i (g x y)))
      (length pre, pre ++ replicate (length l + r) None) l
    = ((length pre + length l)%nat,
       pre ++ ((fun '(x, y) => Some (g x y)) <$> l) ++ replicate r None).
Proof.
  induction l as [|[x y] l IH]; intros pre.
  - cbn. by rewrite Nat.add_0_r.
  - cbn [foldl length Nat.add replicate fmap list_fmap].
    rewrite array_set_next.
    specialize (IH (pre ++ [Some (g x y)])).
    rewrite length_app, Nat.add_1_r, <- !app_assoc in IH. cbn in IH.
    rewrite IH. f_equal. lia.
Qed.

Lemma length_pairs {A B : Type} (l1 : list A) (l2 : list B) :
  length (flat_map (fun x => map (pair x) l2) l1)
  = (length l1 * length l2)%nat.
Proof.
  induction l1 as [|x l1 IH]; [reflexivity|].
  cbn [flat_map length]. rewrite length_app, length_map, IH. lia.
Qed.

Lemma table1D_spec (unbin : Z -> Q) (hist : ndarray) (k : nat) :
  shape hist = [k] ->
  table1D unbin hist =
    (fun x => Some (Datum1D (unbin (Z.of_nat x)) (nd_get hist [Z.of_nat x])))
      <$> seq 0 k.
Proof.
  intros Hs. unfold table1D, nd_size, new_Array. rewrite Hs. cbn [hd fold_right].
  pose proof (fill_seq
    (fun x => Datum1D (unbin (Z.of_nat x)) (nd_get hist [Z.of_nat x]))
    k 0 []) as H.
  cbn [length] in H. rewrite !app_nil_l in H.
  replace (k * 1)%nat with (k + 0)%nat by lia.
  rewrite H. by rewrite app_nil_r.
Qed.

Lemma table2D_spec (fx fy : Z -> Q) (heat : ndarray) (kx ky : nat) :
  shape heat = [kx; ky] ->
  table2D fx fy heat =
    (fun '(x, y) =>
       Some (Datum2D (fx (Z.of_nat x)) (fy (Z.of_nat y))
               (nd_get heat [Z.of_nat x; Z.of_nat y])))
      <$> flat_map (fun x => map (pair x) (seq 0 ky)) (seq 0 kx).
Proof.
  intros Hs. unfold table2D, nd_size, new_Array. rewrite Hs.
  cbn [hd tl fold_right].
  set (pairs := flat_map (fun x => map (pair x) (seq 0 ky)) (seq 0 kx)).
  assert (length pairs = (kx * (ky * 1))%nat) as Hlen.
  { subst pairs. rewrite length_pairs, !length_seq. lia. }
  pose proof (fill_counter
    (fun x y => Datum2D (fx (Z.of_nat x)) (fy (Z.of_nat y))
                  (nd_get heat [Z.of_nat x; Z.of_nat y]))
    pairs 0 []) as H.
  cbn [length] in H. rewrite !app_nil_l, Nat.add_0_r, Hlen, app_nil_r in H.
  etransitivity; [exact (f_equal snd H)|reflexivity].
Qed.

(** C8. Every update of a 1D view hands over an array with one
    [{key, value}] element per entry of the histogram, and every update of a
    2D view one [{keyX, keyY, value}] element per pair of entries of the
    heatmap, row by row.  The value is the entry; the keys are not the
    indices of the entry but what [binToData] makes of them with the bin
    configuration of the view's dimension (or of its two dimensions). *)
Theorem views_receive_keyed_bins (n : V) (s : App) :
  n ∈ vegaViews s ->
  (forall (view : Dimension) (hist : ndarray) (c : BinConfig) (k : nat),
     binConfig view = Some c ->
     shape hist = [k] ->
     exists tbl,
       update1DView n view hist s = mk_Outcome s [Change n tbl] (Some tt) /\
       length tbl = k /\
       forall x, (x < k)%nat ->
         tbl !! x =
           Some (Some (Datum1D (binToData c (Z.of_nat x))
                         (nd_get hist [Z.of_nat x])))) /\
  (forall (view : Dimension * Dimension) (heat : ndarray)
          (cx cy : BinConfig) (kx ky : nat),
     binConfig (fst view) = Some cx ->
     binConfig (snd view) = Some cy ->
     shape heat = [kx; ky] ->
     exists tbl,
       update2DView n view heat s = mk_Outcome s [Change n tbl] (Some tt) /\
       length tbl = (kx * ky)%nat /\
       forall x y, (x < kx)%nat -> (y < ky)%nat ->
         tbl !! (x * ky + y)%nat =
           Some (Some (Datum2D (binToData cx (Z.of_nat x))
                         (binToData cy (Z.of_nat y))
                         (nd_get heat [Z.of_nat x; Z.of_nat y])))).
Proof.
  intros Hin. split.
  - intros view hist c k Hc Hs.
    exists (table1D (binToData c) hist). split; [|split].
    + unfold update1DView, updateView, on_vegaView. rewrite Hc. munfold.
      by destruct (decide (n ∈ vegaViews s)).
    + rewrite (table1D_spec _ _ k Hs). by rewrite length_fmap, length_seq.
    + intros x Hx. rewrite (table1D_spec _ _ k Hs), list_lookup_fmap.
      by rewrite lookup_seq_lt.
  - intros view heat cx cy kx ky Hcx Hcy Hs.
    exists (table2D (binToData cx) (binToData cy) heat). split; [|split].
    + unfold update2DView, updateView, on_vegaView. rewrite Hcx, Hcy. munfold.
      by destruct (decide (n ∈ vegaViews s)).
    + rewrite (table2D_spec _ _ _ kx ky Hs).
      by rewrite length_fmap, length_pairs, !length_seq.
    + intros x y Hx Hy.
      rewrite (table2D_spec _ _ _ kx ky Hs), list_lookup_fmap.
      rewrite (lookup_blocks _ ky);
        [|intros x0; cbn beta; by rewrite length_map, length_seq|done].
      rewrite lookup_seq_lt by done. cbn [mbind option_bind].
      rewrite list_lookup_fmap, lookup_seq_lt by done. reflexivity.
Qed.

Lemma views_receive_keyed_bins_witness :
  exists tbl,
    update1DView "DISTANCE" Flights.distance
      (ndarray_of [Num 3; Num 5] [2%nat]) (app Flights.started)
    = mk_Outcome (app Flights.started) [Change "DISTANCE" tbl] (Some tt) /\
    length tbl = 2%nat /\
    forall x, (x < 2)%nat ->
      tbl !! x =
        Some (Some (Datum1D
                      (binToData (Flights.bin 25 (50, 2000)%Q) (Z.of_nat x))
                      (nd_get (ndarray_of [Num 3; Num 5] [2%nat])
                         [Z.of_nat x]))).
Proof.
  apply (proj1 (views_receive_keyed_bins "DISTANCE" (app Flights.started)
                  ltac:(vm_compute; reflexivity))
           Flights.distance (ndarray_of [Num 3; Num 5] [2%nat])
           (Flights.bin 25 (50, 2000)%Q) 2%nat);
    reflexivity.
Defined.

(** ** The constructor *)

Lemma views_get_keys (vs : Views) (n : V) :
  is_Some (views_get vs n) <-> n ∈ vs.*1.
Proof.
  induction vs as [|[k v] vs IH]; cbn.
  - split; [by intros [? ?]|by intros ?%elem_of_nil].
  - destruct (decide (k = n)) as [->|Hne].
    + split; [intros _; left|by eexists].
    + rewrite IH. split; [by right|].
      intros [?|?]%elem_of_cons; [congruence|done].
Qed.

Lemma views_set_keys (vs : Views) (n : V) (v : View) :
  (views_set vs n v).*1 = vs.*1.
Proof.
  induction vs as [|[k w] vs IH]; [reflexivity|]. cbn.
  destruct (decide (k = n)); cbn; [done|by rewrite IH].
Qed.

Lemma views_get_set (vs : Views) (n m : V) (v : View) :
  views_get (views_set vs n v) m =
    if decide (n = m) then (fun _ => v) <$> views_get vs n
    else views_get vs m.
Proof.
  induction vs as [|[k w] vs IH]; cbn.
  - by destruct (decide (n = m)).
  - destruct (decide (k = n)) as [->|Hkn]; cbn.
    + destruct (decide (n = m)); [done|].
      by destruct (decide (n = m)).
    + destruct (decide (k = m)) as [->|Hkm].
      * by destruct (decide (n = m)); [congruence|].
      * rewrite IH. by destruct (decide (n = m)).
Qed.

Lemma binned_idemp (bin : Z -> Interval -> BinConfig) (v : View) :
  binned bin (binned bin v) = binned bin v.
Proof. by destruct v as [d|[dx dy]]. Qed.

Lemma first_table_binned (bin : Z -> Interval -> BinConfig) (d : DataBase)
    (v : View) :
  first_table bin d (binned bin v) = first_table bin d v.
Proof. by destruct v as [dim|[dx dy]]. Qed.

Lemma initialize_view_cases (bin : Z -> Interval -> BinConfig) (n : V)
    (s : App) :
  initialize_view bin n s =
    match views_get (views s) n with
    | None => mk_Outcome s [] None
    | Some v =>
        mk_Outcome
          (set_vegaViews ({[n]} ∪ vegaViews s)
             (set_views (views_set (views s) n (binned bin v)) s))
          [Change n (first_table bin (db s) v)]
          (Some tt)
    end.
Proof.
  unfold initialize_view. munfold.
  destruct (views_get (views s) n) as [[dim|[dx dy]]|]; msimpl;
    [| |reflexivity].
  - unfold update1DView, updateView, on_vegaView.
    cbn [binConfig with_binConfig]. munfold.
    destruct (decide (n ∈ {[n]} ∪ vegaViews s)) as [_|Hn]; [done|].
    exfalso. apply Hn, elem_of_union. left. by apply elem_of_singleton.
  - unfold update2DView, updateView, on_vegaView.
    cbn [binConfig with_binConfig fst snd]. munfold.
    destruct (decide (n ∈ {[n]} ∪ vegaViews s)) as [_|Hn]; [done|].
    exfalso. apply Hn, elem_of_union. left. by apply elem_of_singleton.
Qed.

(** The loop of [initialize], started after the names [done]. *)
Lemma initialize_loop (bin : Z -> Interval -> BinConfig) (vs0 : Views)
    (order : list V) :
  forall (s : App) (done : list V),
    (forall m, views_get (views s) m =
       if decide (m ∈ done) then binned bin <$> views_get vs0 m
       else views_get vs0 m) ->
    vegaViews s = list_to_set done ->
    let o := for_each order (initialize_view bin) s in
    (result o = Some tt <->
     Forall (fun n => is_Some (views_get vs0 n)) order) /\
    (result o = Some tt ->
     Forall2
       (fun n e => exists v,
          views_get vs0 n = Some v /\
          e = Change n (first_table bin (db s) v))
       order (effects o) /\
     (forall m, views_get (views (state o)) m =
        if decide (m ∈ done ++ order) then binned bin <$> views_get vs0 m
        else views_get vs0 m) /\
     vegaViews (state o) = list_to_set (done ++ order) /\
     (views (state o)).*1 = (views s).*1 /\
     activeView (state o) = activeView s /\
     brushes (state o) = brushes s /\
     data (state o) = data s /\
     needsUpdate (state o) = needsUpdate s /\
     db (state o) = db s).
Proof.
  induction order as [|n order IH]; intros s done Hv Hvv.
  - cbn. split; [by split|]. intros _. rewrite app_nil_r.
    by repeat split.
  - cbn [for_each]. unfold mbind, M_bind. rewrite initialize_view_cases.
    pose proof (Hv n) as Hn.
    destruct (views_get (views s) n) as [v|] eqn:Hget; cbn [state effects result].
    + assert (exists v0, views_get vs0 n = Some v0 /\
                binned bin v = binned bin v0) as (v0 & Hv0 & Hb).
      { destruct (decide (n ∈ done)), (views_get vs0 n) as [v0|];
          cbn in Hn; try done; injection Hn as ->; exists v0;
          by rewrite ?binned_idemp. }
      set (s1 := set_vegaViews ({[n]} ∪ vegaViews s)
                   (set_views (views_set (views s) n (binned bin v)) s)).
      specialize (IH s1 (done ++ [n])).
      destruct IH as [IHr IHe].
      { intros m. subst s1. msimpl. rewrite views_get_set, Hget. cbn.
        destruct (decide (n = m)) as [<-|Hnm].
        - rewrite decide_True
            by (apply elem_of_app; right; by apply list_elem_of_singleton).
          by rewrite Hv0, Hb.
        - rewrite Hv. destruct (decide (m ∈ done)) as [Hm|Hm].
          + by rewrite decide_True by (apply elem_of_app; by left).
          + rewrite decide_False; [done|].
            intros [?|?%list_elem_of_singleton]%elem_of_app; congruence. }
      { subst s1. msimpl. rewrite Hvv, list_to_set_app_L. cbn.
        apply set_eq. intros x.
        rewrite !elem_of_union, elem_of_singleton, elem_of_empty. tauto. }
      destruct (for_each order (initialize_view bin) s1) as [s2 out2 r2].
      cbn [state effects result] in *. split.
      * rewrite IHr. split; [intros H; constructor; [by eexists|done]|].
        by intros H; inversion H.
      * intros Hr. destruct (IHe Hr)
          as (He & Hv2 & Hvv2 & Hk & Ha & Hbr & Hd & Hnu & Hdb).
        rewrite <- app_assoc in Hv2, Hvv2. cbn [app] in Hv2, Hvv2.
        subst s1. msimpl. split; [|rewrite views_set_keys in Hk; done].
        cbn [app]. constructor; [|done].
        exists v0. split; [done|].
        assert (first_table bin (db s) v = first_table bin (db s) v0) as ->;
          [|done].
        by rewrite <- (first_table_binned bin (db s) v), Hb,
             first_table_binned.
    + split; [|done]. split; [done|]. intros H. inversion H as [|? ? [v0 Hv0]].
      rewrite Hv0 in Hn. by destruct (decide (n ∈ done)).
Qed.

(** X1. The constructor completes exactly when [views] has every name of
    [order]; otherwise it throws at the first name that is missing. *)
Theorem new_App_completes_iff (bin : Z -> Interval -> BinConfig)
    (vs : Views) (order : list V) (d : DataBase) :
  result (new_App bin vs order d) = Some tt <->
  forall n, n ∈ order -> n ∈ vs.*1.
Proof.
  unfold new_App, initialize.
  destruct (initialize_loop bin vs order (mk_App None ∅ ∅ None false vs d) [])
    as [Hr _]; [done..|].
  rewrite Hr, Forall_forall. by setoid_rewrite views_get_keys.
Qed.

(** X2. A constructor that completes has drawn every view of [order] once,
    in that order, with the unfiltered histogram or heatmap of the database
    keyed by the bins of the view.  It leaves no active view, no brush, no
    cube and a clear flag; the vega views are those of [order], and the
    views of [order], and only those, have their dimensions binned with
    their own [bins] and [extent]. *)
Theorem new_App_draws_views (bin : Z -> Interval -> BinConfig)
    (vs : Views) (order : list V) (d : DataBase) :
  let o := new_App bin vs order d in
  result o = Some tt ->
  Forall2
    (fun n e => exists v,
       views_get vs n = Some v /\ e = Change n (first_table bin d v))
    order (effects o) /\
  activeView (state o) = None /\
  brushes (state o) = ∅ /\
  data (state o) = None /\
  needsUpdate (state o) = false /\
  vegaViews (state o) = list_to_set order /\
  forall m, views_get (views (state o)) m =
    if decide (m ∈ order) then binned bin <$> views_get vs m
    else views_get vs m.
Proof.
  intros o Hr. subst o. unfold new_App, initialize in *.
  destruct (initialize_loop bin vs order (mk_App None ∅ ∅ None false vs d) [])
    as [_ He]; [done..|].
  destruct (He Hr) as (H1 & H2 & H3 & _ & H4 & H5 & H6 & H7 & _).
  by repeat split.
Qed.

Lemma new_App_draws_views_witness :
  vegaViews (state (new_App Flights.bin Flights.views Flights.order
                      Flights.database))
  = list_to_set Flights.order.
Proof.
  refine (proj1 (proj2 (proj2 (proj2 (proj2 (proj2
            (new_App_draws_views Flights.bin Flights.views Flights.order
               Flights.database _))))))).
  vm_compute; reflexivity.
Defined.

(** ** What [update] does and when it completes *)

Lemma for_each_effects {A : Type} (Q : App -> Prop) (P : Effect -> Prop)
    (l : list A) (body : A -> M unit) :
  (forall x s, x ∈ l -> Q s ->
     Q (state (body x s)) /\ Forall P (effects (body x s))) ->
  forall s, Q s -> Forall P (effects (for_each l body s)).
Proof.
  induction l as [|x l IH]; intros Hbody s Hs; [by constructor|].
  cbn [for_each]. unfold mbind, M_bind.
  destruct (Hbody x s) as [Hq Hp]; [by left|done|].
  destruct (body x s) as [s1 out1 [[]|]]; cbn [state effects result] in *;
    [|done].
  specialize (IH (fun y s' Hy => Hbody y s' (proj2 (elem_of_cons _ _ _) (or_intror Hy)))
                s1 Hq).
  destruct (for_each l body s1) as [s2 out2 r2]. cbn in *.
  by apply Forall_app.
Qed.

Lemma update_view_effects (W : Z) (ab : option (Z * Z)) (n : V)
    (view : View) (s : App) :
  Forall (fun e => exists tbl, e = Change n tbl /\ activeView s <> Some n)
    (effects (update_view W ab (n, view) s)).
Proof.
  unfold update_view. munfold.
  destruct (decide (Some n = activeView s)) as [|Hn]; [by constructor|].
  destruct (option_bind _ _ _ (data s)) as [hists|]; [|by constructor].
  destruct view as [d1|d2].
  - unfold update1DView, updateView, on_vegaView.
    destruct (binConfig d1); munfold; [|by constructor].
    destruct (decide (n ∈ vegaViews s)); cbn; [|by constructor].
    constructor; [|done]. eexists. split; [done|congruence].
  - unfold update2DView, updateView, on_vegaView.
    destruct (binConfig d2.1), (binConfig d2.2); munfold;
      try by constructor.
    destruct (decide (n ∈ vegaViews s)); cbn; [|by constructor].
    constructor; [|done]. eexists. split; [done|congruence].
Qed.

(** X3. Whatever the state, and whether it completes or throws, [update]
    calls nothing but [change] on vega views, and only on views of the map
    that are not the active one: it issues no [loadData], asks for no
    animation frame and never redraws the active view. *)
Theorem update_only_changes_passive_views (W : Z) (s : App) (e : Effect) :
  e ∈ effects (update W s) ->
  exists n tbl,
    e = Change n tbl /\ n ∈ (views s).*1 /\ activeView s <> Some n.
Proof.
  unfold update, getActiveView. munfold.
  destruct (needsUpdate s); msimpl; [|by intros ?%elem_of_nil].
  destruct (activeView s) as [act|] eqn:Ha; msimpl;
    [|by intros ?%elem_of_nil].
  destruct (views_get (views s) act) as [[dim|dims]|]; msimpl;
    try by intros ?%elem_of_nil.
  set (ab := activeBrushOf W _ _).
  match goal with
  | |- context [for_each (views s) _ ?x] => set (s0 := x)
  end.
  assert (Forall
            (fun e => exists n tbl, e = Change n tbl /\ n ∈ (views s).*1 /\
                                    Some act <> Some n)
            (effects (for_each (views s) (update_view W ab) s0))) as H.
  { apply (for_each_effects (fun s1 => s1 = s0)); [|done].
    intros [n view] s1 Hin ->. rewrite update_view_state. split; [done|].
    eapply Forall_impl; [apply update_view_effects|].
    intros e' (tbl & -> & Hn). exists n, tbl. split; [done|].
    split; [|by rewrite <- Ha].
    change n with (n, view).1. by apply list_elem_of_fmap_2. }
  destruct (for_each (views s) (update_view W ab) s0) as [s2 out2 r2].
  cbn [state effects result app] in *. intros He.
  by apply (proj1 (Forall_forall _ _) H).
Qed.

Lemma update_only_changes_passive_views_witness :
  exists n tbl,
    hd RequestAnimationFrame (effects (update 4 (Flights.brushed 4)))
      = Change n tbl /\
    n ∈ (views (Flights.brushed 4)).*1 /\
    activeView (Flights.brushed 4) <> Some n.
Proof.
  apply (update_only_changes_passive_views 4 (Flights.brushed 4)).
  vm_compute. left.
Defined.

Lemma update_view_result (W : Z) (ab : option (Z * Z)) (n : V)
    (view : View) (s : App) :
  result (update_view W ab (n, view) s) = Some tt <->
  bool_decide (Some n = activeView s) ||
  (bool_decide (n ∈ vegaViews s) &&
   bool_decide (is_Some (data s ≫= (.!! n))) &&
   configured view) = true.
Proof.
  unfold update_view. munfold.
  destruct (decide (Some n = activeView s)) as [Hn|Hn].
  { rewrite (bool_decide_eq_true_2 _ Hn). done. }
  rewrite (bool_decide_eq_false_2 _ Hn). cbn [orb].
  change (option_bind _ _ (lookup n) (data s)) with (data s ≫= (.!! n)).
  destruct (data s ≫= (.!! n)) as [hists|]; cbn [state effects result].
  2: { rewrite (bool_decide_eq_false_2 (is_Some None))
         by (by intros [? ?]).
       rewrite andb_false_r. done. }
  rewrite (bool_decide_eq_true_2 (is_Some (Some hists))) by (by eexists).
  rewrite andb_true_r.
  destruct view as [d1|[dx dy]]; cbn [configured].
  - unfold update1DView, updateView, on_vegaView.
    destruct (binConfig d1) as [c|]; munfold.
    + rewrite (bool_decide_eq_true_2 (is_Some (Some c))) by (by eexists).
      rewrite andb_true_r.
      destruct (decide (n ∈ vegaViews s)) as [Hv|Hv]; cbn.
      * by rewrite (bool_decide_eq_true_2 _ Hv).
      * by rewrite (bool_decide_eq_false_2 _ Hv).
    + rewrite (bool_decide_eq_false_2 (is_Some None)) by (by intros [? ?]).
      by rewrite andb_false_r.
  - unfold update2DView, updateView, on_vegaView. cbn [fst snd].
    destruct (binConfig dx) as [cx|], (binConfig dy) as [cy|]; munfold;
      rewrite ?(bool_decide_eq_false_2 (is_Some None)) by (by intros [? ?]);
      rewrite ?andb_false_r, ?andb_false_l; try done.
    rewrite !(bool_decide_eq_true_2 (is_Some (Some _))) by (by eexists).
    rewrite !andb_true_r.
    destruct (decide (n ∈ vegaViews s)) as [Hv|Hv]; cbn.
    * by rewrite (bool_decide_eq_true_2 _ Hv).
    * by rewrite (bool_decide_eq_false_2 _ Hv).
Qed.

Lemma update_loop_result (W : Z) (ab : option (Z * Z)) (s : App)
    (vs : Views) :
  result (for_each vs (update_view W ab) s) = Some tt <->
  forallb
    (fun '(n, view) =>
       bool_decide (Some n = activeView s) ||
       (bool_decide (n ∈ vegaViews s) &&
        bool_decide (is_Some (data s ≫= (.!! n))) &&
        configured view)) vs = true.
Proof.
  induction vs as [|[n view] vs IH]; [done|].
  cbn [for_each forallb]. unfold mbind, M_bind.
  rewrite andb_true_iff, <- IH, <- (update_view_result W ab n view s).
  pose proof (update_view_state W ab (n, view) s) as Hs.
  destruct (update_view W ab (n, view) s) as [s1 out1 [[]|]];
    cbn [state effects result] in *; subst.
  - destruct (for_each vs (update_view W ab) s) as [s2 out2 r2]. cbn.
    tauto.
  - split; [done|]. by intros [? _].
Qed.

(** X4. An [update] on a set dirty flag completes exactly when a 1D view is
    active and every other view of the map has a vega view, bin
    configurations and a cube in [data]; in every other case it throws. *)
Theorem update_completes_iff (W : Z) (s : App) :
  needsUpdate s = true ->
  (result (update W s) = Some tt <->
   (exists act dim,
      activeView s = Some act /\
      views_get (views s) act = Some (View1D dim)) /\
   ready s = true).
Proof.
  intros Hd. unfold update, getActiveView. munfold. rewrite Hd. msimpl.
  destruct (activeView s) as [act|] eqn:Ha; msimpl.
  2: { split; [done|]. by intros [(? & ? & ? & _) _]. }
  destruct (views_get (views s) act) as [[dim|dims]|] eqn:Hv; msimpl.
  - set (ab := activeBrushOf W _ _).
    match goal with
    | |- context [for_each (views s) _ ?x] => set (s0 := x)
    end.
    pose proof (update_loop_result W ab s0 (views s)) as H.
    change (forallb _ (views s)) with (ready s0) in H.
    change (ready s0) with (ready s) in H.
    destruct (for_each (views s) (update_view W ab) s0) as [s2 out2 r2].
    cbn [state effects result] in *. rewrite H.
    split; [intros Hr; split; [by exists act, dim|done]|by intros [_ ?]].
  - split; [done|]. intros [(? & ? & [= <-] & ?) _]. congruence.
  - split; [done|]. intros [(? & ? & [= <-] & ?) _]. congruence.
Qed.

Lemma update_completes_iff_witness :
  result (update 4 (Flights.brushed 4)) = Some tt <->
  (exists act dim,
     activeView (Flights.brushed 4) = Some act /\
     views_get (views (Flights.brushed 4)) act = Some (View1D dim)) /\
  ready (Flights.brushed 4) = true.
Proof.
  apply (update_completes_iff 4 (Flights.brushed 4)).
  vm_compute; reflexivity.
Defined.

(** X5. [update] writes no field but the dirty flag and always leaves it
    clear, also when it throws; so an update that failed is not tried
    again: the callbacks of later frames do nothing until the next
    [brushMove]. *)
Theorem update_is_not_retried (W : Z) (s : App) (k : nat) :
  state (update W s) = set_needsUpdate false s /\
  run_callbacks W k (state (update W s)) = (state (update W s), []).
Proof.
  split; [apply update_state|].
  apply run_callbacks_clean. by rewrite update_state.
Qed.

(** ** What the handlers leave alone *)

Lemma mouseover_activate (W : Z) (n : V) (s : App) :
  mouseover W n s = activate W n s.
Proof.
  unfold mouseover, activate. munfold.
  destruct (decide (activeView s = Some n)); [done|].
  by destruct (switchActiveView W n s) as [s1 out1 [[]|]].
Qed.

Lemma switchActiveView_setup (W : Z) (n : V) (s : App) :
  same_setup s (state (switchActiveView W n s)).
Proof.
  destruct (switchActiveView_cases W n s) as [(old & _ & _ & ->)|H]; [done|].
  destruct (views_get (views s) n); cbv zeta in H; by rewrite H.
Qed.

Lemma activate_setup (W : Z) (n : V) (s : App) :
  same_setup s (state (activate W n s)).
Proof.
  unfold activate. destruct (decide (activeView s = Some n)); [done|].
  apply switchActiveView_setup.
Qed.

Lemma brushMove_setup (W : Z) (n : V) (d : D) (value : option Interval)
    (s : App) :
  same_setup s (state (brushMove W n d value s)).
Proof.
  rewrite brushMove_cases. pose proof (activate_setup W n s) as H.
  by destruct (result (activate W n s)).
Qed.

Lemma run_callbacks_state (W : Z) (k : nat) (s : App) :
  fst (run_callbacks W k s) = s \/
  fst (run_callbacks W k s) = set_needsUpdate false s.
Proof.
  destruct k as [|k]; [by left|]. right.
  by rewrite run_callbacks_once, update_state.
Qed.

Lemma dispatch_setup (W : Z) (e : Event) (w w' : World) (out : list Effect) :
  dispatch W e w = Some (w', out) -> same_setup (app w) (app w').
Proof.
  destruct e as [n|n value|]; cbn [dispatch].
  - destruct (listens (app w) n); [|done]. intros [= <- _].
    rewrite mouseover_activate. apply activate_setup.
  - destruct (listens (app w) n); [|done]. intros [= <- _].
    apply brushMove_setup.
  - intros [= <- _]. cbn [app].
    by destruct (run_callbacks_state W (frames w) (app w)) as [->| ->].
Qed.

Lemma run_events_setup (W : Z) (es : list Event) :
  forall w w' out,
    run_events W es w = Some (w', out) -> same_setup (app w) (app w').
Proof.
  induction es as [|e es IH]; intros w w' out Hrun; cbn in Hrun.
  - by injection Hrun as <- _.
  - destruct (dispatch W e w) as [[w1 out1]|] eqn:Hd; [|done].
    destruct (run_events W es w1) as [[w2 out2]|] eqn:Hr; [|done].
    injection Hrun as <- _.
    destruct (dispatch_setup _ _ _ _ _ Hd) as (H1 & H2 & H3).
    destruct (IH _ _ _ Hr) as (H4 & H5 & H6).
    repeat split; congruence.
Qed.

(** X6. No event changes what the constructor set up: after any sequence
    of mouseovers, brush signals and animation frames the views (with their
    bins), the vega views and the database are the ones the sequence
    started with. *)
Theorem events_keep_setup (W : Z) (es : list Event) (w w' : World)
    (out : list Effect) :
  run_events W es w = Some (w', out) ->
  views (app w') = views (app w) /\
  vegaViews (app w') = vegaViews (app w) /\
  db (app w') = db (app w).
Proof. apply run_events_setup. Qed.

Lemma events_keep_setup_witness :
  views (app (Flights.dragged 4)) = views (app Flights.started) /\
  vegaViews (app (Flights.dragged 4)) = vegaViews (app Flights.started) /\
  db (app (Flights.dragged 4)) = db (app Flights.started).
Proof.
  apply (events_keep_setup 4 [BrushSignal "ARR_DELAY" (Some (50, 10)%Q)]
           Flights.started (Flights.dragged 4)
           (effects (brushMove 4 "ARR_DELAY" "ARR_DELAY" (Some (50, 10)%Q)
                       (app Flights.started)))).
  vm_compute; reflexivity.
Defined.

(** X7. Brushes change only where the user brushes: a mouseover or an
    animation frame changes no brush, and a brush signal on a view changes
    at most the entry of that view's own dimension. *)
Theorem only_the_brushed_dimension_changes (W : Z) (e : Event)
    (w w' : World) (out : list Effect) (k : D) :
  dispatch W e w = Some (w', out) ->
  brushes (app w') !! k <> brushes (app w) !! k ->
  exists n value dim,
    e = BrushSignal n value /\
    views_get (views (app w)) n = Some (View1D dim) /\
    k = name dim /\
    brushes (app w') !! k = extent <$> value.
Proof.
  destruct e as [n|n value|]; cbn [dispatch].
  - destruct (listens (app w) n); [|done]. intros [= <- _].
    rewrite mouseover_activate. cbn [app]. by rewrite activate_brushes.
  - destruct (listens (app w) n) as [dim|] eqn:Hl; [|done].
    intros [= <- _]. cbn [app]. rewrite brushMove_cases.
    apply listens_Some in Hl as [_ Hv].
    destruct (result (activate W n (app w))); msimpl;
      rewrite ?activate_brushes; [|done].
    intros Hk. exists n, value, dim.
    destruct (decide (k = name dim)) as [->|Hne].
    + repeat split; [done|].
      destruct value; cbn; [apply lookup_insert_eq|apply lookup_delete_eq].
    + exfalso. apply Hk.
      destruct value; cbn;
        [by apply lookup_insert_ne|by apply lookup_delete_ne].
  - intros [= <- _]. cbn [app].
    by destruct (run_callbacks_state W (frames w) (app w)) as [->| ->].
Qed.

Lemma only_the_brushed_dimension_changes_witness :
  exists n value dim,
    BrushSignal "ARR_DELAY" (Some (50, 10)%Q) = BrushSignal n value /\
    views_get (views (app Flights.started)) n = Some (View1D dim) /\
    "ARR_DELAY"%string = name dim /\
    brushes (app (Flights.dragged 4)) !! "ARR_DELAY"%string = extent <$> value.
Proof.
  apply (only_the_brushed_dimension_changes 4
           (BrushSignal "ARR_DELAY" (Some (50, 10)%Q))
           Flights.started (Flights.dragged 4)
           (effects (brushMove 4 "ARR_DELAY" "ARR_DELAY" (Some (50, 10)%Q)
                       (app Flights.started)))).
  - vm_compute; reflexivity.
  - vm_compute. discriminate.
Defined.

(** ** More on the reachable worlds *)

Lemma activate_result (W : Z) (n : V) (s : App) :
  result (activate W n s) = Some tt -> activeView (state (activate W n s)) = Some n.
Proof.
  unfold activate. destruct (decide (activeView s = Some n)); [done|].
  destruct (switchActiveView_cases W n s) as [(old & _ & _ & ->)|H]; [done|].
  destruct (views_get (views s) n); cbv zeta in H; by rewrite H.
Qed.

(** X8. In a reachable world no listener throws: a mouseover and a brush
    signal on any view that has its listeners complete. *)
Theorem listeners_complete (W : Z) (bin : Z -> Interval -> BinConfig)
    (vs : Views) (order : list V) (d : DataBase) (w : World) (n : V)
    (dim : Dimension) (value : option Interval) :
  reachable W bin vs order d w ->
  listens (app w) n = Some dim ->
  result (mouseover W n (app w)) = Some tt /\
  result (brushMove W n (name dim) value (app w)) = Some tt.
Proof.
  intros Hr Hl. pose proof (reachable_inv _ _ _ _ _ _ Hr) as Hi.
  destruct (inv_after_activate W n (app w) dim Hl Hi) as (_ & _ & _ & _ & Ha).
  rewrite mouseover_activate, brushMove_cases. by rewrite Ha.
Qed.

Lemma listeners_complete_witness :
  result (mouseover 4 "DISTANCE" (app (Flights.dragged 4))) = Some tt /\
  result (brushMove 4 "DISTANCE" (name Flights.distance) None
            (app (Flights.dragged 4))) = Some tt.
Proof.
  apply (listeners_complete 4 Flights.bin Flights.views Flights.order
           Flights.database (Flights.dragged 4) "DISTANCE" Flights.distance
           None).
  - split; [vm_compute; reflexivity|].
    exists [BrushSignal "ARR_DELAY" (Some (50, 10)%Q)].
    eexists. vm_compute. reflexivity.
  - vm_compute; reflexivity.
Defined.

Lemma update_pending_after_dispatch (W : Z) (e : Event) (w w' : World)
    (out : list Effect) :
  dispatch W e w = Some (w', out) ->
  inv W (app w) -> update_pending w -> update_pending w'.
Proof.
  intros Hd Hi Hp. destruct e as [n|n value|]; cbn [dispatch] in Hd.
  - destruct (listens (app w) n) as [dim|] eqn:Hl; [|done].
    injection Hd as <- _. rewrite mouseover_activate.
    destruct (inv_after_activate W n (app w) dim Hl Hi)
      as (_ & Ha & _ & _ & _).
    destruct (activate_quiet W n (app w)) as (Hn & _ & Hs).
    unfold update_pending. cbn [app frames]. rewrite Hn, Hs, Ha.
    intros Hd. destruct (Hp Hd) as [Hf _]. split; [lia|by eexists].
  - destruct (listens (app w) n) as [dim|] eqn:Hl; [|done].
    injection Hd as <- _.
    destruct (inv_after_activate W n (app w) dim Hl Hi)
      as (_ & Ha & _ & _ & Hr).
    destruct (brushMove_schedules W n (name dim) value (app w)) as (_ & Hs).
    cbv zeta in Hs. revert Hs. rewrite brushMove_cases, Hr. msimpl.
    intros [_ Hs]. unfold update_pending. cbn [app frames]. msimpl.
    rewrite Hs, Ha. intros _. split; [lia|by eexists].
  - injection Hd as <- _. unfold update_pending. cbn [app frames].
    destruct (frames w) as [|k] eqn:Hf.
    + cbn. intros Hd. destruct (Hp Hd) as [? _]. lia.
    + rewrite run_callbacks_once. cbn [fst]. by rewrite update_state.
Qed.

Lemma update_pending_after_events (W : Z) (es : list Event) :
  forall w w' out,
    run_events W es w = Some (w', out) ->
    inv W (app w) -> update_pending w -> update_pending w'.
Proof.
  induction es as [|e es IH]; intros w w' out Hrun Hi Hp; cbn in Hrun.
  - by injection Hrun as <- _.
  - destruct (dispatch W e w) as [[w1 out1]|] eqn:Hd; [|done].
    destruct (run_events W es w1) as [[w2 out2]|] eqn:Hr; [|done].
    injection Hrun as <- _.
    eapply IH; [exact Hr| |].
    + eapply inv_after_dispatch; [exact Hd|exact Hi].
    + eapply update_pending_after_dispatch; [exact Hd|exact Hi|exact Hp].
Qed.

Lemma new_App_needsUpdate (bin : Z -> Interval -> BinConfig) (vs : Views)
    (order : list V) (d : DataBase) :
  needsUpdate (state (new_App bin vs order d)) = false.
Proof.
  unfold new_App, initialize.
  apply (for_each_preserves (fun s => needsUpdate s = false)); [|reflexivity].
  intros n s Hs. rewrite initialize_view_cases.
  by destruct (views_get (views s) n).
Qed.

Lemma reachable_pending (W : Z) (bin : Z -> Interval -> BinConfig)
    (vs : Views) (order : list V) (d : DataBase) (w : World) :
  reachable W bin vs order d w -> update_pending w.
Proof.
  intros (Hres & es & out & Hrun).
  eapply update_pending_after_events; [exact Hrun| |].
  - cbn [app]. pose proof (new_App_activeView bin vs order d) as Hn.
    split; intros act; [|intros dim]; rewrite Hn; done.
  - intros Hd. cbn [app] in Hd. by rewrite new_App_needsUpdate in Hd.
Qed.

(** X9. No brush is forgotten: in every reachable world in which the dirty
    flag is set, a callback that will run [update] is queued for the next
    animation frame and some view is active. *)
Theorem dirty_flag_has_pending_update (W : Z)
    (bin : Z -> Interval -> BinConfig) (vs : Views) (order : list V)
    (d : DataBase) (w : World) :
  reachable W bin vs order d w ->
  needsUpdate (app w) = true ->
  (0 < frames w)%nat /\ is_Some (activeView (app w)).
Proof. intros Hr. by apply (reachable_pending W bin vs order d). Qed.

Lemma dirty_flag_has_pending_update_witness :
  (0 < frames (Flights.dragged 4))%nat /\
  is_Some (activeView (app (Flights.dragged 4))).
Proof.
  apply (dirty_flag_has_pending_update 4 Flights.bin Flights.views
           Flights.order Flights.database (Flights.dragged 4)).
  - split; [vm_compute; reflexivity|].
    exists [BrushSignal "ARR_DELAY" (Some (50, 10)%Q)].
    eexists. vm_compute. reflexivity.
  - vm_compute; reflexivity.
Defined.

Lemma views_get_NoDup (vs : Views) (n : V) (view : View) :
  NoDup vs.*1 -> (n, view) ∈ vs -> views_get vs n = Some view.
Proof.
  induction vs as [|[k v] vs IH]; intros Hnd Hin.
  - by apply elem_of_nil in Hin.
  - cbn in *. apply NoDup_cons in Hnd as [Hk Hnd].
    apply elem_of_cons in Hin as [[= -> ->]|Hin].
    + by rewrite decide_True.
    + destruct (decide (k = n)) as [->|_]; [|by apply IH].
      exfalso. apply Hk. change n with (n, view).1.
      by apply list_elem_of_fmap_2.
Qed.

Lemma configured_binned (bin : Z -> Interval -> BinConfig) (v : View) :
  configured (binned bin v) = true.
Proof.
  destruct v as [dim|[dx dy]]; cbn;
    rewrite ?bool_decide_eq_true_2 by (by eexists); done.
Qed.

(** What the constructor set up is there in every reachable world. *)
Lemma reachable_setup (W : Z) (bin : Z -> Interval -> BinConfig)
    (vs : Views) (order : list V) (d : DataBase) (w : World) :
  reachable W bin vs order d w ->
  vegaViews (app w) = list_to_set order /\
  db (app w) = d /\
  (views (app w)).*1 = vs.*1 /\
  forall m, views_get (views (app w)) m =
    if decide (m ∈ order) then binned bin <$> views_get vs m
    else views_get vs m.
Proof.
  intros (Hres & es & out & Hrun).
  destruct (run_events_setup _ _ _ _ _ Hrun) as (Hv & Hvv & Hdb).
  cbn [app] in *. rewrite Hv, Hvv, Hdb.
  unfold new_App, initialize in *.
  destruct (initialize_loop bin vs order (mk_App None ∅ ∅ None false vs d) [])
    as [_ He]; [done..|].
  destruct (He Hres) as (_ & H2 & H3 & H4 & _ & _ & _ & _ & H5).
  by repeat split.
Qed.

(** X10. With a map of views without a repeated name, all of them in
    [order], and a database that builds a cube for every passive view it is
    asked for, the update of every reachable dirty world completes: a 1D
    view is active, every passive view has its cube, and each of them is
    handed its table. *)
Theorem reachable_update_completes (W : Z)
    (bin : Z -> Interval -> BinConfig) (vs : Views) (order : list V)
    (d : DataBase) (w : World) :
  NoDup vs.*1 ->
  (forall n, n ∈ vs.*1 -> n ∈ order) ->
  builds_all_cubes d ->
  reachable W bin vs order d w ->
  needsUpdate (app w) = true ->
  ready (app w) = true /\
  result (update W (app w)) = Some tt /\
  exists act,
    activeView (app w) = Some act /\
    length (effects (update W (app w))) = length (omit (views (app w)) act).
Proof.
  intros Hnd Hall Hdb Hr Hd.
  destruct (reachable_inv _ _ _ _ _ _ Hr) as [Hal Hcc].
  destruct (reachable_pending _ _ _ _ _ _ Hr Hd) as [_ [act Hact]].
  destruct (Hal act Hact) as [dim Hl]. apply listens_Some in Hl as [_ Hv].
  destruct (reachable_setup _ _ _ _ _ _ Hr) as (Hvv & Hd' & Hk & Hget).
  assert (ready (app w) = true) as Hready.
  { unfold ready. apply forallb_forall. intros [n view] Hin%list_elem_of_In.
    rewrite Hact. destruct (decide (n = act)) as [->|Hne].
    { by rewrite bool_decide_eq_true_2. }
    rewrite (bool_decide_eq_false_2 (Some n = Some act)) by congruence.
    assert (n ∈ vs.*1) as Hnk.
    { rewrite <- Hk. change n with (n, view).1.
      by apply list_elem_of_fmap_2. }
    rewrite bool_decide_eq_true_2
      by (rewrite Hvv; apply elem_of_list_to_set; auto).
    rewrite bool_decide_eq_true_2.
    2: { rewrite (Hcc act dim Hact Hv), Hd'. cbn. apply (Hdb _ _ _ _ n).
         change n with (n, view).1. apply list_elem_of_fmap_2.
         unfold omit. by apply list_elem_of_filter. }
    cbn. pose proof (views_get_NoDup _ n view ltac:(by rewrite Hk) Hin) as Hg.
    rewrite Hget, decide_True in Hg by auto.
    destruct (views_get vs n) as [v0|]; [|done]. injection Hg as <-.
    apply configured_binned. }
  split; [exact Hready|].
  destruct (update_effects W (app w) act dim Hd Hact Hv Hready)
    as (_ & Hres & He).
  split; [exact Hres|]. exists act. split; [done|].
  symmetry. by eapply Forall2_length.
Qed.

Lemma flights_builds_all_cubes : builds_all_cubes Flights.database.
Proof.
  intros av px passive b n Hn. cbn.
  destruct (list_to_map _ !! n) as [c|] eqn:Hl; [by eexists|].
  apply not_elem_of_list_to_map in Hl. exfalso. apply Hl.
  rewrite <- list_fmap_compose.
  erewrite list_fmap_ext; [exact Hn|]. by intros i [k v] _.
Qed.

Lemma reachable_update_completes_witness :
  ready (app (Flights.dragged 4)) = true /\
  result (update 4 (app (Flights.dragged 4))) = Some tt /\
  exists act,
    activeView (app (Flights.dragged 4)) = Some act /\
    length (effects (update 4 (app (Flights.dragged 4))))
    = length (omit (views (app (Flights.dragged 4))) act).
Proof.
  apply (reachable_update_completes 4 Flights.bin Flights.views
           Flights.order Flights.database (Flights.dragged 4)).
  - apply (bool_decide_eq_true_1 (NoDup Flights.views.*1)).
    vm_compute; reflexivity.
  - apply Forall_forall.
    apply (bool_decide_eq_true_1
             (Forall (fun n => n ∈ Flights.order) Flights.views.*1)).
    vm_compute; reflexivity.
  - exact flights_builds_all_cubes.
  - split; [vm_compute; reflexivity|].
    exists [BrushSignal "ARR_DELAY" (Some (50, 10)%Q)].
    eexists. vm_compute. reflexivity.
  - vm_compute; reflexivity.
Defined.

(** ** How the handlers compose *)

(** X11. No drift: switching to a view [m] and then to a view [n] leaves
    the controller in the state that switching to [n] at once leaves it in,
    with the same cubes; so going from [n] to [m] and back to [n] restores
    the cubes of [n]. *)
Theorem switch_there_and_back (W : Z) (n m : V) (dn dm : Dimension)
    (s : App) :
  active_listens s ->
  listens s n = Some dn ->
  listens s m = Some dm ->
  state (switchActiveView W n (state (switchActiveView W m s)))
  = state (switchActiveView W n s).
Proof.
  intros Ha Hn Hm.
  rewrite (switchActiveView_listening W m s dm Hm Ha). msimpl.
  rewrite (switchActiveView_listening W n s dn Hn Ha). msimpl.
  erewrite (switchActiveView_listening W n _ dn); [reflexivity|exact Hn|].
  intros act. msimpl. intros [= <-]. by exists dm.
Qed.

Lemma switch_there_and_back_witness :
  state (switchActiveView 4 "ARR_DELAY"
           (state (switchActiveView 4 "DISTANCE" (Flights.brushed 4))))
  = state (switchActiveView 4 "ARR_DELAY" (Flights.brushed 4)).
Proof.
  apply (switch_there_and_back 4 "ARR_DELAY" "DISTANCE" Flights.arr_delay
           Flights.distance (Flights.brushed 4)).
  - intros act Hact.
    assert (act = "ARR_DELAY"%string) as ->
      by (vm_compute in Hact; congruence).
    exists Flights.arr_delay. vm_compute; reflexivity.
  - vm_compute; reflexivity.
  - vm_compute; reflexivity.
Defined.

Lemma brush_write_twice (d : D) (v1 v2 : option Interval)
    (b : gmap D Interval) :
  brush_write d v2 (brush_write d v1 b) = brush_write d v2 b.
Proof.
  destruct v1, v2; cbn;
    [apply insert_insert_eq|apply delete_insert_eq|apply insert_delete_eq|
     apply delete_delete_eq].
Qed.

(** X12. The last brush wins: two moves in a row of the brush of the active
    view leave the controller in the state the second move alone leaves it
    in; the first interval is gone without a trace. *)
Theorem last_brush_wins (W : Z) (n : V) (d : D) (v1 v2 : option Interval)
    (s : App) :
  activeView s = Some n ->
  state (brushMove W n d v2 (state (brushMove W n d v1 s)))
  = state (brushMove W n d v2 s).
Proof.
  intros Ha. rewrite !brushMove_cases. unfold activate.
  rewrite (decide_True _ _ Ha). msimpl.
  rewrite (decide_True _ _ Ha). msimpl.
  unfold set_needsUpdate, set_brushes. msimpl.
  by rewrite brush_write_twice.
Qed.

Lemma last_brush_wins_witness :
  state (brushMove 4 "ARR_DELAY" "ARR_DELAY" None
           (state (brushMove 4 "ARR_DELAY" "ARR_DELAY" (Some (20, 30)%Q)
                     (Flights.brushed 4))))
  = state (brushMove 4 "ARR_DELAY" "ARR_DELAY" None (Flights.brushed 4)).
Proof.
  apply (last_brush_wins 4 "ARR_DELAY" "ARR_DELAY" (Some (20, 30)%Q) None
           (Flights.brushed 4)).
  vm_compute; reflexivity.
Defined.

(** X13. Drawing a brush on the active view and clearing it again restores
    the brushes: if the dimension had no brush before, the brushes after
    the two moves are the ones before them, and the cubes were not
    rebuilt. *)
Theorem brush_then_clear (W : Z) (n : V) (d : D) (v : Interval) (s : App) :
  activeView s = Some n ->
  brushes s !! d = None ->
  let s' :=
    state (brushMove W n d None (state (brushMove W n d (Some v) s))) in
  brushes s' = brushes s /\ data s' = data s /\
  s' = set_needsUpdate true s.
Proof.
  intros Ha Hb. cbv zeta. rewrite !brushMove_cases. unfold activate.
  rewrite (decide_True _ _ Ha). msimpl.
  rewrite (decide_True _ _ Ha). msimpl.
  cbn [brush_write].
  rewrite delete_insert_eq, (delete_id _ _ Hb).
  by repeat split.
Qed.

Lemma brush_then_clear_witness :
  let s' :=
    state (brushMove 4 "ARR_DELAY" "DISTANCE" None
             (state (brushMove 4 "ARR_DELAY" "DISTANCE" (Some (20, 30)%Q)
                       (Flights.brushed 4)))) in
  brushes s' = brushes (Flights.brushed 4) /\
  data s' = data (Flights.brushed 4) /\
  s' = set_needsUpdate true (Flights.brushed 4).
Proof.
  apply (brush_then_clear 4 "ARR_DELAY" "DISTANCE" (20, 30)%Q
           (Flights.brushed 4)); vm_compute; reflexivity.
Defined.

(** X14. A view whose brush moves is the active view afterwards: every
    [brushMove] that completes leaves its view active and the flag set, and
    every cube build it issues is for that view. *)
Theorem brushed_view_is_active (W : Z) (n : V) (d : D)
    (value : option Interval) (s : App) :
  let o := brushMove W n d value s in
  result o = Some tt ->
  activeView (state o) = Some n /\
  needsUpdate (state o) = true /\
  forall av px passive b,
    LoadData av px passive b ∈ effects o ->
    views_get (views s) n = Some av /\ activeView s <> Some n.
Proof.
  cbv zeta. rewrite brushMove_cases.
  destruct (result (activate W n s)) as [[]|] eqn:Hr; [|done]. intros _.
  msimpl. split; [by apply activate_result|]. split; [done|].
  intros av px passive b Hin. unfold activate in *.
  destruct (decide (activeView s = Some n)) as [Ha|Ha].
  { cbn in Hin. apply list_elem_of_singleton in Hin. discriminate Hin. }
  split; [|done].
  apply elem_of_app in Hin as [Hin|Hin%list_elem_of_singleton];
    [|discriminate Hin].
  destruct (switchActiveView_cases W n s) as [(old & _ & _ & H)|H].
  { rewrite H in Hin. by apply elem_of_nil in Hin. }
  destruct (views_get (views s) n) as [av0|]; cbv zeta in H; rewrite H in Hin;
    cbn [effects] in Hin.
  - apply elem_of_app in Hin as [Hin|Hin].
    + unfold deactivation in Hin.
      destruct (truthy_name (activeView s));
        [apply list_elem_of_singleton in Hin; discriminate Hin|
         by apply elem_of_nil in Hin].
    + apply elem_of_cons in Hin as [[= -> _ _ _]|Hin]; [done|].
      destruct (decide (n ∈ vegaViews s));
        [apply list_elem_of_singleton in Hin; discriminate Hin|
         by apply elem_of_nil in Hin].
  - unfold deactivation in Hin.
    destruct (truthy_name (activeView s));
      [apply list_elem_of_singleton in Hin; discriminate Hin|
       by apply elem_of_nil in Hin].
Qed.

Lemma brushed_view_is_active_witness :
  activeView (state (brushMove 4 "DISTANCE" "DISTANCE" (Some (100, 200)%Q)
                       (Flights.brushed 4)))
  = Some "DISTANCE"%string.
Proof.
  refine (proj1 (brushed_view_is_active 4 "DISTANCE" "DISTANCE"
                   (Some (100, 200)%Q) (Flights.brushed 4) _)).
  vm_compute; reflexivity.
Defined.

(** X15. Hovering draws nothing: a mouseover, also one that switches the
    active view and rebuilds the cubes, hands no table to any view, asks
    for no animation frame and leaves the dirty flag and the brushes as
    they are.  The passive views keep showing what they showed until the
    next brush move. *)
Theorem mouseover_draws_nothing (W : Z) (n : V) (s : App) :
  let o := mouseover W n s in
  List.filter is_change (effects o) = [] /\
  scheduled (effects o) = 0%nat /\
  needsUpdate (state o) = needsUpdate s /\
  brushes (state o) = brushes s.
Proof.
  cbv zeta. rewrite mouseover_activate.
  destruct (activate_quiet W n s) as (H1 & H2 & H3).
  by rewrite activate_brushes.
Qed.

(** X17. The cast in [getActiveView] is safe: in every reachable world the
    active view, if there is one, is a 1D view of the map, one of [order],
    with a vega view and its listeners. *)
Theorem active_view_is_1D (W : Z) (bin : Z -> Interval -> BinConfig)
    (vs : Views) (order : list V) (d : DataBase) (w : World) (act : V) :
  reachable W bin vs order d w ->
  activeView (app w) = Some act ->
  act ∈ order /\
  act ∈ vegaViews (app w) /\
  exists dim,
    views_get (views (app w)) act = Some (View1D dim) /\
    getActiveView (app w) = mk_Outcome (app w) [] (Some (Some (View1D dim))).
Proof.
  intros Hr Hact. destruct (reachable_inv _ _ _ _ _ _ Hr) as [Hal _].
  destruct (Hal act Hact) as [dim Hl]. apply listens_Some in Hl as [Hin Hv].
  destruct (reachable_setup _ _ _ _ _ _ Hr) as (Hvv & _).
  split; [by rewrite Hvv, elem_of_list_to_set in Hin|]. split; [done|].
  exists dim. split; [done|]. unfold getActiveView, gets.
  by rewrite Hact; cbn; rewrite Hv.
Qed.

Lemma active_view_is_1D_witness :
  "ARR_DELAY"%string ∈ Flights.order /\
  "ARR_DELAY"%string ∈ vegaViews (app (Flights.dragged 4)) /\
  exists dim,
    views_get (views (app (Flights.dragged 4))) "ARR_DELAY"
      = Some (View1D dim) /\
    getActiveView (app (Flights.dragged 4))
      = mk_Outcome (app (Flights.dragged 4)) [] (Some (Some (View1D dim))).
Proof.
  apply (active_view_is_1D 4 Flights.bin Flights.views Flights.order
           Flights.database (Flights.dragged 4) "ARR_DELAY").
  - split; [vm_compute; reflexivity|].
    exists [BrushSignal "ARR_DELAY" (Some (50, 10)%Q)].
    eexists. vm_compute. reflexivity.
  - vm_compute; reflexivity.
Defined.

(** ** When a switch fails *)

(** X18. A switch to a name that the map of views does not have fails half
    way: the view that was active has got its deactivation signal and
    [activeView] already names the unknown view, but no cube is built, the
    cubes of the old view stay in [data] and nothing is activated. *)
Theorem switch_to_unknown_view (W : Z) (n : V) (s : App) :
  views_get (views s) n = None ->
  (forall old, truthy_name (activeView s) = Some old -> old ∈ vegaViews s) ->
  switchActiveView W n s
  = mk_Outcome (set_activeView n s) (deactivation s) None /\
  data (state (switchActiveView W n s)) = data s /\
  forall e, e ∈ effects (switchActiveView W n s) ->
    exists old, activeView s = Some old /\ e = SignalActive old false.
Proof.
  intros Hv Hold.
  destruct (switchActiveView_cases W n s) as [(old & Ho & Hnin & _)|H].
  { by specialize (Hold old Ho). }
  rewrite Hv in H. rewrite H. split; [done|]. split; [done|].
  intros e He. cbn [effects] in He. unfold deactivation in He.
  destruct (truthy_name (activeView s)) as [old|] eqn:Ho;
    [|by apply elem_of_nil in He].
  apply list_elem_of_singleton in He as ->. exists old.
  split; [by apply truthy_name_Some|done].
Qed.

Lemma switch_to_unknown_view_witness :
  switchActiveView 4 "AIR_TIME" (Flights.brushed 4)
  = mk_Outcome (set_activeView "AIR_TIME" (Flights.brushed 4))
      (deactivation (Flights.brushed 4)) None.
Proof.
  refine (proj1 (switch_to_unknown_view 4 "AIR_TIME" (Flights.brushed 4)
                   _ _)).
  - vm_compute; reflexivity.
  - intros old Hold.
    assert (old = "ARR_DELAY"%string) as ->
      by (vm_compute in Hold; congruence).
    vm_compute; reflexivity.
Defined.

(** X19. A [brushMove] whose switch of the active view throws stores
    nothing: the brushes and the dirty flag are as before, no animation
    frame is asked for and no view is handed a table. *)
Theorem failed_brushMove_stores_nothing (W : Z) (n : V) (d : D)
    (value : option Interval) (s : App) :
  let o := brushMove W n d value s in
  result o = None ->
  brushes (state o) = brushes s /\
  needsUpdate (state o) = needsUpdate s /\
  scheduled (effects o) = 0%nat /\
  List.filter is_change (effects o) = [] /\
  activeView s <> Some n.
Proof.
  cbv zeta. rewrite brushMove_cases.
  destruct (activate_quiet W n s) as (Hn & Hc & Hs).
  pose proof (activate_brushes W n s) as Hb.
  destruct (result (activate W n s)) eqn:Hr; [done|]. intros _. msimpl.
  repeat split; try done.
  intros Ha. unfold activate in Hr. by rewrite decide_True in Hr.
Qed.

Lemma failed_brushMove_stores_nothing_witness :
  brushes (state (brushMove 4 "AIR_TIME" "AIR_TIME" (Some (1, 2)%Q)
                    (Flights.brushed 4)))
  = brushes (Flights.brushed 4).
Proof.
  refine (proj1 (failed_brushMove_stores_nothing 4 "AIR_TIME" "AIR_TIME"
                   (Some (1, 2)%Q) (Flights.brushed 4) _)).
  vm_compute; reflexivity.
Defined.

(** ** The index of the configured views *)

Lemma index_snoc (vs : list Config.View) (d : Config.View) :
  Config.index (vs ++ [d]) = Config.assign (Config.index vs) d.
Proof. unfold Config.index. by rewrite foldl_app. Qed.

(** The own properties of the index: under every name but ["__proto__"]
    the last view of that name, and nothing under ["__proto__"]. *)
Lemma index_own (vs : list Config.View) (n : string) :
  Config.own (Config.index vs) !! n =
    if decide (n = "__proto__"%string) then None
    else last (filter (fun d => Config.name d = n) vs).
Proof.
  induction vs as [|d vs IH] using rev_ind.
  { cbn. by destruct (decide _). }
  rewrite index_snoc, filter_app, filter_cons, filter_nil.
  unfold Config.assign.
  destruct (decide (Config.name d = "__proto__"%string)) as [Hp|Hp];
    cbn [Config.own].
  - rewrite IH. destruct (decide (n = "__proto__"%string)) as [->|Hn];
      [done|].
    rewrite decide_False by congruence. by rewrite app_nil_r.
  - destruct (decide (Config.name d = n)) as [<-|Hne].
    + rewrite lookup_insert_eq, decide_False by done. by rewrite last_snoc.
    + rewrite lookup_insert_ne, IH by done. by rewrite app_nil_r.
Qed.

Lemma index_proto (vs : list Config.View) :
  Config.proto (Config.index vs)
  = last (filter (fun d => Config.name d = "__proto__"%string) vs).
Proof.
  induction vs as [|d vs IH] using rev_ind; [done|].
  rewrite index_snoc, filter_app, filter_cons, filter_nil.
  unfold Config.assign.
  destruct (decide (Config.name d = "__proto__"%string)) as [Hp|Hp];
    cbn [Config.proto].
  - by rewrite last_snoc.
  - by rewrite app_nil_r.
Qed.

(** X16. A read of the index under a name gives a view exactly when some
    view of the list has that name, and then it gives the last view of the
    name; under a name that no view has it gives something inherited or
    [undefined], never a view.  So every view of a list without a repeated
    name is found under its own name, as are the four views of the
    configuration.  A view named ["__proto__"] is not stored as a property:
    it becomes the prototype of the index, and is read back as such. *)
Theorem index_finds_views_by_name (vs : list Config.View) (n : string) :
  (forall v,
     Config.read (Config.index vs) n = Config.Found v <->
     last (filter (fun d => Config.name d = n) vs) = Some v) /\
  (NoDup (Config.name <$> vs) ->
   forall d, d ∈ vs ->
     Config.read (Config.index vs) (Config.name d) = Config.Found d) /\
  (forall d, d ∈ Config.views ->
     Config.read Config.viewIndex (Config.name d) = Config.Found d) /\
  Config.own (Config.index vs) !! "__proto__"%string = None /\
  Config.proto (Config.index vs)
  = last (filter (fun d => Config.name d = "__proto__"%string) vs).
Proof.
  assert (forall ws m v,
            Config.read (Config.index ws) m = Config.Found v <->
            last (filter (fun d => Config.name d = m) ws) = Some v) as Hread.
  { intros ws m v. unfold Config.read. rewrite index_own, index_proto.
    destruct (decide (m = "__proto__"%string)) as [->|Hm].
    - destruct (last _) as [p|]; [|done].
      split; by intros [= ->].
    - destruct (last (filter (fun d => Config.name d = m) ws)) as [v'|].
      + split; by intros [= ->].
      + split; [|done].
        destruct (decide (m ∈ Config.Object_prototype)); [done|].
        destruct (last _) as [p|]; [|done].
        by destruct (decide (m ∈ Config.fields p)). }
  assert (forall ws, NoDup (Config.name <$> ws) ->
            forall d, d ∈ ws ->
              last (filter (fun e => Config.name e = Config.name d) ws)
              = Some d) as Hnd.
  { intros ws Hws d Hd.
    induction ws as [|e ws IH]; [by apply elem_of_nil in Hd|].
    cbn in Hws. apply NoDup_cons in Hws as [He Hws].
    rewrite filter_cons. apply elem_of_cons in Hd as [->|Hd].
    - rewrite decide_True by done.
      destruct (filter _ ws) as [|x l] eqn:Hf; [done|].
      assert (x ∈ filter (fun d => Config.name d = Config.name e) ws)
        as [Hn Hx]%list_elem_of_filter by (rewrite Hf; left).
      exfalso. apply He. rewrite <- Hn. by apply list_elem_of_fmap_2.
    - destruct (decide (Config.name e = Config.name d)) as [Hn|_];
        [|by apply IH].
      exfalso. apply He. rewrite Hn. by apply list_elem_of_fmap_2. }
  split; [apply Hread|]. split.
  { intros Hvs d Hd. apply Hread. by apply Hnd. }
  split.
  { intros d Hd. apply Hread. apply Hnd; [|done].
    apply (bool_decide_eq_true_1 _). vm_compute; reflexivity. }
  split; [|apply index_proto].
  rewrite index_own. by rewrite decide_True.
Qed.

Lemma index_finds_views_by_name_witness :
  Config.read (Config.index Config.views)
    (Config.name
       (Config.View1D "DISTANCE" "Distance" "DISTANCE" (50, 2000)%Q 25))
  = Config.Found
      (Config.View1D "DISTANCE" "Distance" "DISTANCE" (50, 2000)%Q 25).
Proof.
  apply (proj1 (proj2 (index_finds_views_by_name Config.views ""))).
  - apply (bool_decide_eq_true_1 _). vm_compute; reflexivity.
  - right. left.
Defined.
